(** * The benchmark sweep of [full_benchmark.py], embedded and verified

    The runner iterates a two-dimensional grid (number of files, size of the
    worker pool), calls an external worker once per grid point, classifies
    the failures it knows, reduces every trial table to a row of statistics
    and writes the rows as a tab-separated report.

    The embedding follows the Python source function by function.  Effects
    are explicit: a function that may raise returns [exn + A], text printed
    on the error channel is returned next to the result, and the output
    sink is threaded through [main_inner].  The worker process is the
    argument [nvim]: an arbitrary function from the command line it is given
    to the completed process it yields.  *)

From Stdlib Require Import List String Ascii Bool ZArith QArith Lia.
From Stdlib Require Import Permutation Numbers.DecimalString.
From Stdlib Require Import Sorted OrdersEx RelationClasses.
Import ListNotations.

Local Open Scope string_scope.
Local Open Scope Z_scope.

(** ** Text helpers: [str.partition] and the [in] operator *)

Definition newline : ascii := Ascii.ascii_of_nat 10.
Definition tab : ascii := Ascii.ascii_of_nat 9.

(** [s.partition(sep)] for a one-character separator: the text before the
    first occurrence, the separator found (empty when there is none) and the
    text after it. *)
Fixpoint partition (sep : ascii) (s : string) : string * string * string :=
  match s with
  | EmptyString => (EmptyString, EmptyString, EmptyString)
  | String c rest =>
      if Ascii.eqb c sep then (EmptyString, String sep EmptyString, rest)
      else
        let '(head, found, tail) := partition sep rest in
        (String c head, found, tail)
  end.

Fixpoint is_prefix (p s : string) : bool :=
  match p, s with
  | EmptyString, _ => true
  | String a p', String b s' => Ascii.eqb a b && is_prefix p' s'
  | String _ _, EmptyString => false
  end.

(** [pattern in text]: does [pattern] occur somewhere inside [text]? *)
Fixpoint str_in (pattern text : string) : bool :=
  is_prefix pattern text ||
  match text with
  | EmptyString => false
  | String _ rest => str_in pattern rest
  end.

(** The two properties the executable tests are compared with. *)
Definition Occurs (pattern text : string) : Prop :=
  exists before after, text = before ++ pattern ++ after.

Fixpoint has_char (c : ascii) (s : string) : bool :=
  match s with
  | EmptyString => false
  | String d rest => Ascii.eqb d c || has_char c rest
  end.

(** Truthiness of a Python string. *)
Definition truthy (s : string) : bool :=
  match s with EmptyString => false | _ => true end.

(** ** Error classifier *)

(** [ErrorCode = Literal["ok", "emfile", "timeout"]] is a string type. *)
Definition ErrorCode := string.

(** The dictionary literal, in insertion order (the order [items()] yields). *)
Definition KNOWN_ERRORS : list (ErrorCode * string) :=
  [ ("emfile", "EMFILE: too many open files");
    ("timeout", "promise timeout of 20000ms reached") ].

Fixpoint first_known (head : string) (items : list (ErrorCode * string))
  : option ErrorCode :=
  match items with
  | [] => None
  | (code, pattern) :: rest =>
      if str_in pattern head then Some code else first_known head rest
  end.

Definition get_known_error_code (stderr : string) : option ErrorCode :=
  let '(head, _, _) := partition newline stderr in
  first_known head KNOWN_ERRORS.

(** The first line of a text, as [partition] cuts it. *)
Definition first_line (s : string) : string := fst (fst (partition newline s)).

(** ** Data model *)

(** A [float64] cell of a table: a number, or [None] for the missing value
    [nan].  Numbers are exact rationals: the rounding and the overflow of
    [float64] arithmetic and the two infinities are not modelled.  The
    square root that the standard deviation needs is a parameter of the
    development. *)
Definition cell := option Q.

Definition nan : cell := None.

(** A [pd.DataFrame] of trials: its columns in order, each a label and the
    values of the column, one per trial. *)
Definition DataFrame := list (string * list cell).

(** A value stored in a summary row: a float (possibly missing), a string
    or an integer. *)
Inductive value : Type :=
| VFloat (x : cell)
| VStr (s : string)
| VInt (n : Z).

(** A label of a two-level [MultiIndex]. *)
Definition key := (string * string)%type.

(** A [pd.Series] over a two-level index: the entries in index order. *)
Definition Series := list (key * value).

Definition keys (s : Series) : list key := map fst s.

(** The exceptions the modelled code raises.  All of them are subclasses of
    Python's [Exception].  A [TypeError] comes with the value that a series
    refused to store. *)
Inductive exn : Type :=
| CalledProcessError (returncode : Z) (stderr : string)
| AssertionError (csv : DataFrame)
| KeyError (label : string)
| ValueError (msg : string)
| TypeError (refused : value)
| OSError (msg : string).

(** What [subprocess.run] gets back from the worker.  [stdout] is the table
    that [pd.read_csv] reads from the captured text, and [stdout_int64]
    names the columns that it reads with the dtype [int64], which are those
    whose fields are all written as integers; the other columns are
    [float64].  A text that [pd.read_csv] refuses (it raises
    [EmptyDataError] on an empty one) has no table and is not covered. *)
Record CompletedProcess := {
  returncode : Z;
  stdout : DataFrame;
  stdout_int64 : list string;
  proc_stderr : string
}.

(** A table together with the labels of its [int64] columns. *)
Definition Table := (DataFrame * list string)%type.

(** The fixture directory, as the list of the numbers of the [.org] files it
    holds. *)
Definition Path := list Z.

(** The worker: from [(dir, n_parallel, n_warmup, duration)] to the completed
    process. *)
Definition Worker := Path -> Z -> Z -> Q -> CompletedProcess.

(** ** [range] *)

Record range := { start : Z; stop : Z; step : Z }.

(** [len(range(start, stop, step))]; a step of zero cannot be built. *)
Definition range_len (r : range) : Z :=
  if 0 <? step r then
    if start r <? stop r then (stop r - start r - 1) / step r + 1 else 0
  else if step r <? 0 then
    if stop r <? start r then (start r - stop r - 1) / (- step r) + 1 else 0
  else 0.

Definition range_elems (r : range) : list Z :=
  map (fun i => start r + Z.of_nat i * step r) (seq 0 (Z.to_nat (range_len r))).

(** ** [gendir] and [make_empty_data] *)

(** [gendir] touches the files [1.org] ... [n_files.org]. *)
Definition gendir (n_files : Z) : Path :=
  range_elems {| start := 1; stop := 1 + n_files; step := 1 |}.

(** Three copies of the data point [setup_ms = nan, time_ms = nan]. *)
Definition make_empty_data : DataFrame :=
  let data_point := [("setup_ms", nan); ("time_ms", nan)] in
  map (fun '(label, x) => (label, repeat x 3%nat)) data_point.

(** ** Generic insertion sort (stable) *)

Section Sorting.
Context {A : Type} (le : A -> A -> bool).

Fixpoint insert (x : A) (l : list A) : list A :=
  match l with
  | [] => [x]
  | y :: l' => if le x y then x :: l else y :: insert x l'
  end.

Fixpoint isort (l : list A) : list A :=
  match l with
  | [] => []
  | x :: l' => insert x (isort l')
  end.
End Sorting.

(** ** The column reductions of pandas ([axis=0], [skipna=True]) *)

Definition dropna (xs : list cell) : list Q :=
  flat_map (fun c => match c with Some q => [q] | None => [] end) xs.

Definition Qsum (qs : list Q) : Q := fold_right Qplus 0%Q qs.

Definition count (qs : list Q) : Q := inject_Z (Z.of_nat (List.length qs)).

Definition col_mean (xs : list cell) : cell :=
  match dropna xs with
  | [] => nan
  | qs => Some (Qsum qs / count qs)%Q
  end.

Definition col_min (xs : list cell) : cell :=
  match dropna xs with
  | [] => nan
  | q :: qs => Some (fold_left (fun a b => if Qle_bool b a then b else a) qs q)
  end.

Definition col_max (xs : list cell) : cell :=
  match dropna xs with
  | [] => nan
  | q :: qs => Some (fold_left (fun a b => if Qle_bool a b then b else a) qs q)
  end.

(** The middle value of the sorted numbers, or the mean of the two middle
    values when their number is even. *)
Definition col_median (xs : list cell) : cell :=
  match isort Qle_bool (dropna xs) with
  | [] => nan
  | qs =>
      let n := List.length qs in
      let hi := nth (n / 2)%nat qs 0%Q in
      if Nat.even n then Some ((nth (n / 2 - 1)%nat qs 0%Q + hi) / 2)%Q
      else Some hi
  end.

(** The names that [getattr(data, stat)] is called with. *)
Inductive Stat : Type := Mean | Median | Min | Max | Std.

Definition stat_label (s : Stat) : string :=
  match s with
  | Mean => "mean" | Median => "median" | Min => "min" | Max => "max"
  | Std => "std"
  end.

Section Benchmark.
Set Default Proof Using "Type".

(** The floating-point square root and the text that [to_csv] prints for
    a number: both belong to the floating-point library and stay
    abstract. *)
Variable fsqrt : Q -> Q.
Variable float_repr : Q -> string.

(** The sample standard deviation ([ddof=1]): missing unless there are at
    least two numbers. *)
Definition col_std (xs : list cell) : cell :=
  match dropna xs with
  | [] | [_] => nan
  | qs =>
      let m := (Qsum qs / count qs)%Q in
      let sq := map (fun q => ((q - m) * (q - m))%Q) qs in
      Some (fsqrt (Qsum sq / (count qs - 1))%Q)
  end.

Definition reduce (s : Stat) : list cell -> cell :=
  match s with
  | Mean => col_mean | Median => col_median | Min => col_min
  | Max => col_max | Std => col_std
  end.

(** [getattr(data, stat)(axis=0)]: one value per column. *)
Definition apply_stat (data : DataFrame) (s : Stat) : list (string * cell) :=
  map (fun '(label, xs) => (label, reduce s xs)) data.

(** [pd.concat(parts, keys=stats)]: the parts in order, every label
    prefixed with the key of its part. *)
Definition concat_keys (parts : list (string * list (string * cell)))
  : Series :=
  flat_map (fun '(k, part) =>
              map (fun '(label, x) => ((k, label), VFloat x)) part) parts.

Definition swaplevel (s : Series) : Series :=
  map (fun '((a, b), v) => ((b, a), v)) s.

(** Lexicographic order on labels, strings compared as Python does. *)
Definition key_leb (k1 k2 : key) : bool :=
  match String.compare (fst k1) (fst k2) with
  | Lt => true
  | Gt => false
  | Eq => String.leb (snd k1) (snd k2)
  end.

Definition entry_leb (e1 e2 : key * value) : bool := key_leb (fst e1) (fst e2).

Definition sort_index (s : Series) : Series := isort entry_leb s.

(** [stats] is not empty: the only call passes the five of [get_data_row],
    and [pd.concat] refuses an empty list. *)
Definition collect_stats (data : DataFrame) (stats : list Stat) : Series :=
  sort_index
    (swaplevel
       (concat_keys (map (fun s => (stat_label s, apply_stat data s)) stats))).


(** ** Column access on a trial table *)

Definition has_column (label : string) (df : DataFrame) : bool :=
  existsb (fun '(l, _) => String.eqb l label) df.

(** [df[label]]: the column, or [KeyError]. *)
Definition getitem (label : string) (df : DataFrame) : exn + list cell :=
  match find (fun '(l, _) => String.eqb l label) df with
  | Some (_, xs) => inr xs
  | None => inl (KeyError label)
  end.

(** [df.drop(columns=labels)]: every label must be present. *)
Definition drop (labels : list string) (df : DataFrame) : exn + DataFrame :=
  match find (fun l => negb (has_column l df)) labels with
  | Some l => inl (KeyError l)
  | None =>
      inr (filter (fun '(l, _) => negb (existsb (String.eqb l) labels)) df)
  end.

(** [float(n)]: the [float64] number nearest to an integer, the even
    mantissa on a tie.  A mantissa has 53 bits, so that integers up to
    [2 ^ 53] in magnitude are kept as they are.  (Integers beyond the range
    of [float64], about 1.8e308, are not covered.) *)
Definition float64_of_int (n : Z) : Z :=
  let a := Z.abs n in
  if a <? 2 ^ 53 then n
  else
    let unit := 2 ^ (Z.log2 a - 52) in
    let q := a / unit in
    let r := a mod unit in
    let half := unit / 2 in
    let m := if (half <? r) || ((r =? half) && Z.odd q) then q + 1 else q in
    Z.sgn n * (m * unit).

(** [cell == n]: a cell of an [int64] column is compared with [n] itself, a
    cell of a [float64] column with [float(n)].  (A cell that is equal to
    [n] makes [n] a [float64] number, which is its own rounding.) *)
Definition cell_eq (int64 : bool) (c : cell) (n : Z) : bool :=
  match c with
  | Some q =>
      Qeq_bool q (inject_Z n) ||
      (negb int64 && Qeq_bool q (inject_Z (float64_of_int n)))
  | None => false
  end.

(** [all(column == n)]: every cell is a number that compares equal to
    [n]. *)
Definition all_eq (int64 : bool) (column : list cell) (n : Z) : bool :=
  forallb (fun c => cell_eq int64 c n) column.

(** ** pandas: [series[label] = value] on a two-level index

    When entries with the first-level label exist, the value is stored in
    each of them; otherwise a new entry is appended, its second level
    padded with the empty string. *)
Definition has_label (label : string) (s : Series) : bool :=
  existsb (fun '((a, _), _) => String.eqb a label) s.

(** The series after the assignment, when pandas accepts the value.  (The
    value is stored as it is: in [get_data_row] the series has the dtype
    [object] from the first assignment on, which stores the status.) *)
Definition store (label : string) (v : value) (s : Series) : Series :=
  if has_label label s then
    map (fun '((a, b), old) =>
           if String.eqb a label then ((a, b), v) else ((a, b), old)) s
  else (s ++ [((label, ""), v)])%list.

(** The series has the dtype [float64]: it holds floats only. *)
Definition is_float64 (s : Series) : bool :=
  forallb (fun '(_, x) => match x with VFloat _ => true | _ => false end) s.

(** Existing entries of a [float64] series do not take a string: pandas 3
    raises [TypeError] (releases before 3.0 widened the series to [object]
    and stored the string).  Appending a new entry widens the series
    without complaint. *)
Definition refuses (label : string) (v : value) (s : Series) : bool :=
  has_label label s && is_float64 s &&
  match v with VStr _ => true | _ => false end.

Definition setitem (label : string) (v : value) (s : Series) : exn + Series :=
  if refuses label v s then inl (TypeError v)
  else inr (store label v s).

Definition key_eqb (k1 k2 : key) : bool :=
  String.eqb (fst k1) (fst k2) && String.eqb (snd k1) (snd k2).

(** [series[(a, b)]]: the value of the first entry with this label. *)
Definition lookup (k : key) (s : Series) : option value :=
  match find (fun '(k', _) => key_eqb k' k) s with
  | Some (_, v) => Some v
  | None => None
  end.

(** ** Process invoker *)

(** What is written on the error channel. *)
Inductive err_event : Type :=
| Printed (text : string)
| Traceback (e : exn).

Definition benchmark_dir (nvim : Worker) (dir_ : Path)
           (n_parallel n_warmup : Z) (duration : Q)
  : (exn + Table) * list err_event :=
  let proc := nvim dir_ n_parallel n_warmup duration in
  if returncode proc =? 0 then
    let csv := (stdout proc, stdout_int64 proc) in
    (inr csv,
     if truthy (proc_stderr proc) then [Printed (proc_stderr proc)] else [])
  else
    (inl (CalledProcessError (returncode proc) (proc_stderr proc)), []).

(** ** One row of the report *)

Definition row_stats : list Stat := [Mean; Median; Min; Max; Std].

(** The part of [get_data_row] after the [try] statement: the statistics,
    then the three assignments, the first of which may be refused. *)
Definition summary_row (csv : DataFrame) (status : ErrorCode)
           (n_files n_parallel : Z) : exn + Series :=
  let result := collect_stats csv row_stats in
  match setitem "status" (VStr status) result with
  | inl e => inl e
  | inr result =>
      match setitem "n_files" (VInt n_files) result with
      | inl e => inl e
      | inr result => setitem "n_parallel" (VInt n_parallel) result
      end
  end.

(** The row that this part returns when no assignment is refused. *)
Definition reduce_row (csv : DataFrame) (status : ErrorCode)
           (n_files n_parallel : Z) : Series :=
  let result := collect_stats csv row_stats in
  let result := store "status" (VStr status) result in
  let result := store "n_files" (VInt n_files) result in
  let result := store "n_parallel" (VInt n_parallel) result in
  result.

(** The [else] branch of the [try] statement: both assertions, then the
    echoed columns are removed.  The assertions are executed (the
    interpreter does not run with [-O]); an exception raised here is not
    seen by the [except] clause of the same statement. *)
Definition check_echo (int64 : list string) (csv : DataFrame)
           (n_files n_parallel : Z) : exn + DataFrame :=
  let is_int64 label := existsb (String.eqb label) int64 in
  match getitem "n_files" csv with
  | inl e => inl e
  | inr files_col =>
      if negb (all_eq (is_int64 "n_files") files_col n_files)
      then inl (AssertionError csv)
      else
        match getitem "n_parallel" csv with
        | inl e => inl e
        | inr parallel_col =>
            if negb (all_eq (is_int64 "n_parallel") parallel_col n_parallel)
            then inl (AssertionError csv)
            else drop ["n_files"; "n_parallel"] csv
        end
  end.

Definition get_data_row (nvim : Worker) (dir_ : Path)
           (n_files n_parallel n_warmup : Z) (duration : Q)
  : (exn + Series) * list err_event :=
  let '(res, err) := benchmark_dir nvim dir_ n_parallel n_warmup duration in
  match res with
  | inl (CalledProcessError rc stderr as exc) =>
      match get_known_error_code stderr with
      | Some status =>
          if truthy status
          then (summary_row make_empty_data status n_files n_parallel, err)
          else (inl exc, err)
      | None => (inl exc, err)
      end
  | inl exc => (inl exc, err)
  | inr (csv, int64) =>
      match check_echo int64 csv n_files n_parallel with
      | inl e => (inl e, err)
      | inr csv' => (summary_row csv' "ok" n_files n_parallel, err)
      end
  end.

(** ** Report assembler: [pd.DataFrame(rows).to_csv(output, ...)] *)

(** The frame built from a list of rows: the column labels of all rows in
    the order they are first seen, and per row the values aligned to those
    labels, [nan] where a row has no entry.  The index is [0, 1, ...]. *)
Record Report := { columns : list key; records : list (list value) }.

Definition add_label (cols : list key) (k : key) : list key :=
  if existsb (key_eqb k) cols then cols else (cols ++ [k])%list.

Definition combined_columns (rows : list Series) : list key :=
  fold_left (fun cols row => fold_left add_label (keys row) cols) rows [].

Definition align (cols : list key) (row : Series) : list value :=
  map (fun k => match lookup k row with
                | Some v => v
                | None => VFloat nan
                end) cols.

Definition frame_of_rows (rows : list Series) : Report :=
  let cols := combined_columns rows in
  {| columns := cols; records := map (align cols) rows |}.

Definition str_of_int (n : Z) : string := NilZero.string_of_int (Z.to_int n).

(** The field written for a value: [na_rep] stands for a missing one. *)
Definition render (na_rep : string) (v : value) : string :=
  match v with
  | VFloat None => na_rep
  | VFloat (Some q) => float_repr q
  | VStr s => s
  | VInt n => str_of_int n
  end.

(** The text of a report, as its separator and the fields of its lines. *)
Record CsvText := { csv_sep : string; csv_lines : list (list string) }.

Definition header (df : Report) : list (list string) :=
  [ "" :: map fst (columns df); "" :: map snd (columns df) ].

Definition data_lines (df : Report) (na_rep : string) : list (list string) :=
  map (fun '(i, rec) => str_of_int (Z.of_nat i) :: map (render na_rep) rec)
      (combine (seq 0 (List.length (records df))) (records df)).

Definition to_csv (df : Report) (sep na_rep : string) : CsvText :=
  {| csv_sep := sep; csv_lines := (header df ++ data_lines df na_rep)%list |}.

(** The default of [na_rep] in pandas. *)
Definition default_na_rep : string := "".

(** The output sink: the texts written to it, oldest first. *)
Definition TextIO := list CsvText.

Definition write (output : TextIO) (text : CsvText) : TextIO :=
  (output ++ [text])%list.

(** ** Sweep controller *)

(** The state of the grid traversal: the exception that ended it (if any),
    the rows appended so far and what was printed on the error channel. *)
Definition Sweep := (option exn * list Series * list err_event)%type.

(** [for n_parallel in parallel_range: rows.append(get_data_row(...))] *)
Fixpoint inner_loop (nvim : Worker) (dir_ : Path) (n_files n_warmup : Z)
         (duration : Q) (parallel_range : list Z)
         (rows : list Series) (err : list err_event) : Sweep :=
  match parallel_range with
  | [] => (None, rows, err)
  | n_parallel :: rest =>
      match get_data_row nvim dir_ n_files n_parallel n_warmup duration with
      | (inl e, printed) => (Some e, rows, (err ++ printed)%list)
      | (inr row, printed) =>
          inner_loop nvim dir_ n_files n_warmup duration rest
                     (rows ++ [row])%list (err ++ printed)%list
      end
  end.

(** [for n_files in files_range:] a fresh directory, [gendir], the inner
    loop. *)
Fixpoint outer_loop (nvim : Worker) (n_warmup : Z) (duration : Q)
         (files_range parallel_range : list Z)
         (rows : list Series) (err : list err_event) : Sweep :=
  match files_range with
  | [] => (None, rows, err)
  | n_files :: rest =>
      let dir_ := gendir n_files in
      match inner_loop nvim dir_ n_files n_warmup duration parallel_range
                       rows err with
      | (Some e, rows', err') => (Some e, rows', err')
      | (None, rows', err') =>
          outer_loop nvim n_warmup duration rest parallel_range rows' err'
      end
  end.

Definition main_inner (nvim : Worker) (files_range parallel_range : range)
           (n_warmup : Z) (duration : Q) (output : TextIO)
  : (exn + unit) * TextIO * list err_event :=
  match outer_loop nvim n_warmup duration (range_elems files_range)
                   (range_elems parallel_range) [] [] with
  | (Some e, rows, err) =>
      (* Save what data we can. *)
      let output' :=
        match rows with
        | [] => output
        | _ => write output (to_csv (frame_of_rows rows) (String tab "")
                                    default_na_rep)
        end in
      (inl e, output', err)
  | (None, rows, err) =>
      match rows with
      | [] => (inl (ValueError "no data"), output, err)
      | _ =>
          (inr tt,
           write output (to_csv (frame_of_rows rows) (String tab "") "nan"),
           err)
      end
  end.

(** ** Entry points *)

(** The parsed command line ([argparse] itself is outside the model).
    [args_output] is the sink as [main_inner] declares it, a text stream
    that can be written; what [get_parser] hands over for it is not
    modelled. *)
Record Namespace := {
  args_output : TextIO;
  args_files_range : Z * Z * Z;
  args_parallel_range : option (Z * Z * Z);
  args_n_warmup : Z;
  args_duration : Q;
  args_nvim : option Worker
}.

(** [range] applied to the three numbers of an option; a stride of zero
    is refused. *)
Definition make_range (triple : Z * Z * Z) : exn + range :=
  let '(a, b, c) := triple in
  if c =? 0 then inl (ValueError "range() arg 3 must not be zero")
  else inr {| start := a; stop := b; step := c |}.

Definition separator : string := "------------------------------".

Definition main (args : Namespace) : (exn + Z) * TextIO * list err_event :=
  match args_nvim args with
  | None => (inl (OSError "no nvim found"), args_output args, [])
  | Some nvim =>
      match make_range (args_files_range args) with
      | inl e => (inl e, args_output args, [])
      | inr files_range =>
          let parallel :=
            match args_parallel_range args with
            | Some triple => make_range triple
            | None => inr files_range
            end in
          match parallel with
          | inl e => (inl e, args_output args, [])
          | inr parallel_range =>
              match main_inner nvim files_range parallel_range
                               (args_n_warmup args) (args_duration args)
                               (args_output args) with
              | (inl (CalledProcessError rc stderr as exc), output, err) =>
                  (inr 1, output,
                   (err ++ [ Traceback exc;
                             Printed separator;
                             Printed ("catured error output:"
                                        ++ String newline stderr) ])%list)
              | (inl e, output, err) => (inl e, output, err)
              | (inr tt, output, err) => (inr 0, output, err)
              end
          end
      end
  end.

(** The script, [if __name__ == "__main__": main(sys.argv[1:])]: the value
    that [main] returns is not used, so the interpreter ends with status 0
    whenever [main] returns, and with status 1 and a traceback when an
    exception leaves it. *)
Definition run_script (args : Namespace) : Z * TextIO * list err_event :=
  match main args with
  | (inr _, output, err) => (0, output, err)
  | (inl e, output, err) => (1, output, (err ++ [Traceback e])%list)
  end.

(** ** Notions used to state the properties *)

(** The labels of the entries that [collect_stats] builds, before they are
    sorted: for each statistic, one label per column. *)
Definition stat_keys (labels : list string) (stats : list Stat) : list key :=
  flat_map (fun s => map (fun l => (l, stat_label s)) labels) stats.


(** The entry is present and holds the missing value. *)
Definition missing (v : option value) : Prop := v = Some (VFloat nan).

(** The grid in traversal order: files outside, parallelism inside. *)
Definition grid (files parallel : list Z) : list (Z * Z) :=
  flat_map (fun n_files => map (pair n_files) parallel) files.

(** What [get_data_row] yields at a grid point of a sweep. *)
Definition point_result (nvim : Worker) (n_warmup : Z) (duration : Q)
           (point : Z * Z) : exn + Series :=
  fst (get_data_row nvim (gendir (fst point)) (fst point) (snd point)
                    n_warmup duration).

(** The metric columns of a trial table: all but the echoed ones. *)
Definition metric_labels (csv : DataFrame) : list string :=
  filter (fun l => negb (existsb (String.eqb l) ["n_files"; "n_parallel"]))
         (map fst csv).

(** The three metadata entries, in the order they are attached. *)
Definition metadata (status : ErrorCode) (n_files n_parallel : Z) : Series :=
  [ (("status", ""), VStr status);
    (("n_files", ""), VInt n_files);
    (("n_parallel", ""), VInt n_parallel) ].

(** Every cell of the column is a number equal to [n]. *)
Definition uniform (column : list cell) (n : Z) : Prop :=
  Forall (fun c => exists q, c = Some q /\ (q == inject_Z n)%Q) column.

(** The traversal as one loop over a list of grid points. *)
Fixpoint sweep_points (nvim : Worker) (n_warmup : Z) (duration : Q)
         (points : list (Z * Z)) (rows : list Series)
         (err : list err_event) : Sweep :=
  match points with
  | [] => (None, rows, err)
  | (n_files, n_parallel) :: rest =>
      match get_data_row nvim (gendir n_files) n_files n_parallel
                         n_warmup duration with
      | (inl e, printed) => (Some e, rows, (err ++ printed)%list)
      | (inr row, printed) =>
          sweep_points nvim n_warmup duration rest
                       (rows ++ [row])%list (err ++ printed)%list
      end
  end.

(** ** Sample workers and command lines *)

Definition fail_with (stderr : string) : CompletedProcess :=
  {| returncode := 1; stdout := []; stdout_int64 := [];
     proc_stderr := stderr |}.

(** A trial table: the metric columns, then the echoed parameters of a
    worker that reports the number of files it found. *)
Definition echo_table (dir_ : Path) (n_parallel : Z) (metrics : DataFrame)
  : DataFrame :=
  (metrics ++
     [ ("n_files", [Some (inject_Z (Z.of_nat (List.length dir_)))]);
       ("n_parallel", [Some (inject_Z n_parallel)]) ])%list.

(** The sample workers write every number with a decimal point: all
    columns are [float64]. *)
Definition succeed_with (table : DataFrame) : CompletedProcess :=
  {| returncode := 0; stdout := table; stdout_int64 := [];
     proc_stderr := "" |}.

Definition one_trial : DataFrame :=
  [ ("setup_ms", [Some 1%Q]); ("time_ms", [Some 2%Q]) ].

(** Always one trial with [setup_ms = 1] and [time_ms = 2]. *)
Definition worker_one_trial : Worker :=
  fun dir_ n_parallel _ _ =>
    succeed_with (echo_table dir_ n_parallel one_trial).

Definition worker_crash : Worker := fun _ _ _ _ => fail_with "boom".

Definition worker_emfile : Worker :=
  fun _ _ _ _ => fail_with "EMFILE: too many open files".

(** Runs out of file descriptors without a pool, crashes with one. *)
Definition worker_emfile_then_crash : Worker :=
  fun _ n_parallel _ _ =>
    if n_parallel =? 0 then fail_with "EMFILE: too many open files"
    else fail_with "boom".


(** Reports a third metric. *)
Definition worker_extra_metric : Worker :=
  fun dir_ n_parallel _ _ =>
    succeed_with
      (echo_table dir_ n_parallel (one_trial ++ [("io_ms", [Some 3%Q])])%list).

(** Reports a metric that is called [status]. *)
Definition worker_status_metric : Worker :=
  fun dir_ n_parallel _ _ =>
    succeed_with
      (echo_table dir_ n_parallel (one_trial ++ [("status", [Some 0%Q])])%list).

(** Echoes a number of files that is one too high. *)
Definition worker_wrong_echo : Worker :=
  fun dir_ n_parallel _ _ =>
    succeed_with
      (one_trial ++
         [ ("n_files", [Some (inject_Z (Z.of_nat (List.length dir_) + 1))]);
           ("n_parallel", [Some (inject_Z n_parallel)]) ])%list.

(** Echoes a pool of [2 ^ 53] processes, whatever pool it is asked for. *)
Definition worker_rounded_echo : Worker :=
  fun dir_ _ _ _ =>
    succeed_with
      (one_trial ++
         [ ("n_files", [Some (inject_Z (Z.of_nat (List.length dir_)))]);
           ("n_parallel", [Some (inject_Z (2 ^ 53))]) ])%list.

(** The same echo, written without a decimal point: the echoed columns are
    [int64]. *)
Definition worker_rounded_echo_int64 : Worker :=
  fun dir_ n_parallel n_warmup duration =>
    let proc := worker_rounded_echo dir_ n_parallel n_warmup duration in
    {| returncode := returncode proc;
       stdout := stdout proc;
       stdout_int64 := ["n_files"; "n_parallel"];
       proc_stderr := proc_stderr proc |}.

(** The command line [-f 0 1 1 -p 0 2 1] with the given worker: the grid
    points (0, 0) and (0, 1). *)
Definition sample_args (nvim : Worker) : Namespace :=
  {| args_output := [];
     args_files_range := (0, 1, 1);
     args_parallel_range := Some (0, 2, 1);
     args_n_warmup := 10;
     args_duration := 2%Q;
     args_nvim := Some nvim |}.

Definition files_0 : range := {| start := 0; stop := 1; step := 1 |}.
Definition parallel_0_1 : range := {| start := 0; stop := 2; step := 1 |}.
Definition empty_range : range := {| start := 0; stop := 0; step := 1 |}.

(** A square root and a number format to run the samples with: the
    samples never take the root of anything, and print a number as its
    fraction. *)
Definition sample_sqrt : Q -> Q := fun q => q.
Definition sample_repr : Q -> string :=
  fun q => str_of_int (Qnum q) ++ "/" ++ str_of_int (Zpos (Qden q)).

(** The row of the one-trial worker at the point (0, 0), and the row of a
    worker that ran out of file descriptors there. *)
Definition sample_row_ok : Series :=
  ([ (("setup_ms", "max"), VFloat (Some 1%Q));
     (("setup_ms", "mean"), VFloat (Some 1%Q));
     (("setup_ms", "median"), VFloat (Some 1%Q));
     (("setup_ms", "min"), VFloat (Some 1%Q));
     (("setup_ms", "std"), VFloat nan);
     (("time_ms", "max"), VFloat (Some 2%Q));
     (("time_ms", "mean"), VFloat (Some 2%Q));
     (("time_ms", "median"), VFloat (Some 2%Q));
     (("time_ms", "min"), VFloat (Some 2%Q));
     (("time_ms", "std"), VFloat nan) ]
     ++ metadata "ok" 0 0)%list.

Definition sample_row_emfile : Series :=
  ([ (("setup_ms", "max"), VFloat nan);
     (("setup_ms", "mean"), VFloat nan);
     (("setup_ms", "median"), VFloat nan);
     (("setup_ms", "min"), VFloat nan);
     (("setup_ms", "std"), VFloat nan);
     (("time_ms", "max"), VFloat nan);
     (("time_ms", "mean"), VFloat nan);
     (("time_ms", "median"), VFloat nan);
     (("time_ms", "min"), VFloat nan);
     (("time_ms", "std"), VFloat nan) ]
     ++ metadata "emfile" 0 0)%list.

(** What a call of [get_data_row] at a grid point prints on the error
    channel. *)
Definition point_printed (nvim : Worker) (n_warmup : Z) (duration : Q)
           (point : Z * Z) : list err_event :=
  snd (get_data_row nvim (gendir (fst point)) (fst point) (snd point)
                    n_warmup duration).

(** The last two entries of every row. *)
Definition point_entries (n_files n_parallel : Z) : Series :=
  [ (("n_files", ""), VInt n_files); (("n_parallel", ""), VInt n_parallel) ].

(** A worker whose table lacks the echoed number of files. *)
Definition worker_no_echo : Worker :=
  fun _ _ _ _ => succeed_with one_trial.

(** The completed process of the worker at a grid point of a sweep. *)
Definition point_proc (nvim : Worker) (n_warmup : Z) (duration : Q)
           (point : Z * Z) : CompletedProcess :=
  nvim (gendir (fst point)) (snd point) n_warmup duration.

(** The report of a sweep, as [main_inner] writes it. *)
Definition report (rows : list Series) (na_rep : string) : CsvText :=
  to_csv (frame_of_rows rows) (String tab "") na_rep.

(** The order of the labels and of the entries, as relations. *)
Definition key_le (k1 k2 : key) : Prop := key_leb k1 k2 = true.
Definition entry_le (e1 e2 : key * value) : Prop := entry_leb e1 e2 = true.

(** The labels of a row built from a table with the two metrics. *)
Definition summary_keys : list key :=
  [ ("setup_ms", "max"); ("setup_ms", "mean"); ("setup_ms", "median");
    ("setup_ms", "min"); ("setup_ms", "std");
    ("time_ms", "max"); ("time_ms", "mean"); ("time_ms", "median");
    ("time_ms", "min"); ("time_ms", "std");
    ("status", ""); ("n_files", ""); ("n_parallel", "") ].

(** The data lines of a report whose rows are written value by value. *)
Definition value_lines (rows : list Series) (na_rep : string)
  : list (list string) :=
  map (fun '(i, row) =>
         str_of_int (Z.of_nat i) :: map (render na_rep) (map snd row))
      (combine (seq 0 (List.length rows)) rows).

(** The command line with another inner range. *)
Definition with_parallel_range (args : Namespace)
           (parallel : option (Z * Z * Z)) : Namespace :=
  {| args_output := args_output args;
     args_files_range := args_files_range args;
     args_parallel_range := parallel;
     args_n_warmup := args_n_warmup args;
     args_duration := args_duration args;
     args_nvim := args_nvim args |}.

(** The ranges that [main] builds from the command line. *)
Definition args_ranges (args : Namespace) : exn + range * range :=
  match make_range (args_files_range args) with
  | inl e => inl e
  | inr files_range =>
      match args_parallel_range args with
      | Some triple =>
          match make_range triple with
          | inl e => inl e
          | inr parallel_range => inr (files_range, parallel_range)
          end
      | None => inr (files_range, files_range)
      end
  end.

(** ** [visualize.py] *)

(** [clear_unnamed_labels]: [name.startswith("Unnamed: ")] is the prefix
    test. *)
Definition clear_unnamed_labels (name : string) : string :=
  if is_prefix "Unnamed: " name then "" else name.

(** The name that [pd.read_csv] gives to an empty field of a header line:
    the position of the column, counted with the index column, and the
    number of the header line. *)
Definition unnamed (position level : nat) : string :=
  "Unnamed: " ++ str_of_int (Z.of_nat position)
              ++ "_level_" ++ str_of_int (Z.of_nat level).

(** [comment="#"]: what follows the first [#] of a line is not read; the
    field that holds it ends there.  (A line that begins with [#] is
    skipped as a whole, which is not modelled: the header lines of a report
    begin with the empty field of the index.) *)
Fixpoint cut_comment (fields : list string) : list string :=
  match fields with
  | [] => []
  | field :: rest =>
      if has_char "#" field then [fst (fst (partition "#" field))]
      else field :: cut_comment rest
  end.

(** [pd.read_csv(..., comment="#", header=[0, 1], index_col=0)]: the labels
    of the data columns, read from the two header lines; the first column
    is the index, and an empty field of either line gets its name.  Header
    lines of different lengths are refused with a [ParserError], which is a
    [ValueError]. *)
Definition read_labels (line0 line1 : list string) : exn + list key :=
  let line0 := cut_comment line0 in
  let line1 := cut_comment line1 in
  if negb (List.length line0 =? List.length line1)%nat
  then inl (ValueError "Header rows must have an equal number of columns.")
  else
    inr (map (fun '(i, (a, b)) =>
                (if String.eqb a "" then unnamed i 0 else a,
                 if String.eqb b "" then unnamed i 1 else b))
             (tl (combine (seq 0 (List.length line0)) (combine line0 line1)))).

(** [DataFrame.rename(columns=f, level=1)] on the labels. *)
Definition rename_level1 (f : string -> string) (labels : list key)
  : list key :=
  map (fun '(a, b) => (a, f b)) labels.

(** The entries of the [dtype] mapping of [main]; every other column is read
    as [float64]. *)
Definition dtype_overrides : list (key * string) :=
  [ (("status", "Unnamed: 11_level_1"), "category");
    (("n_files", "Unnamed: 12_level_1"), "int64");
    (("n_parallel", "Unnamed: 13_level_1"), "int64") ].

(** The loop of [main] skips a group with [if not (n // 100) % 2: continue]:
    a group is plotted when the test fails. *)
Definition is_plotted (n : Z) : bool := negb (((n / 100) mod 2) =? 0).

Definition one_trial_swapped : DataFrame :=
  [ ("time_ms", [Some 2%Q]); ("setup_ms", [Some 1%Q]) ].

(** * Properties *)

(** ** Text helpers *)

Lemma append_empty (s : string) : s ++ "" = s.
Proof. induction s as [|c s IH]; simpl; [reflexivity | now rewrite IH]. Qed.

Lemma is_prefix_iff (p s : string) :
  is_prefix p s = true <-> exists t, s = p ++ t.
Proof.
  revert s; induction p as [|a p IH]; intros s; simpl.
  - split; [intros _; now exists s | reflexivity].
  - destruct s as [|b s].
    + split; [discriminate | intros [t H]; discriminate].
    + rewrite andb_true_iff, Ascii.eqb_eq, IH. split.
      * intros [-> [t ->]]. now exists t.
      * intros [t H]. injection H as -> ->. split; [reflexivity | now exists t].
Qed.

Lemma str_in_iff (pattern text : string) :
  str_in pattern text = true <-> Occurs pattern text.
Proof.
  induction text as [|c text IH]; simpl.
  - rewrite orb_false_r, is_prefix_iff. split.
    + intros [t H]. now exists "", t.
    + intros [b [a H]]. destruct b; [now exists a | discriminate].
  - rewrite orb_true_iff, is_prefix_iff, IH. split.
    + intros [[t H] | [b [a H]]].
      * now exists "", t.
      * exists (String c b), a. simpl. now rewrite H.
    + intros [b [a H]]. destruct b as [|d b]; simpl in H.
      * left. now exists a.
      * right. injection H as _ H. now exists b, a.
Qed.

Lemma str_in_false_iff (pattern text : string) :
  str_in pattern text = false <-> ~ Occurs pattern text.
Proof.
  rewrite <- str_in_iff. destruct (str_in pattern text); split; intros H.
  - discriminate. - now contradiction H.
  - discriminate. - reflexivity.
Qed.

(** [partition] cuts at the first separator: the head has none, and the
    text is the head alone or the head, the separator and the tail. *)
Lemma partition_spec (sep : ascii) (s : string) :
  let '(head, found, tail) := partition sep s in
  has_char sep head = false /\
  s = head ++ found ++ tail /\
  (found = "" /\ tail = "" \/ found = String sep "").
Proof.
  induction s as [|c s IH]; simpl.
  - repeat split. now left.
  - destruct (Ascii.eqb c sep) eqn:E.
    + apply Ascii.eqb_eq in E. subst c. repeat split. now right.
    + destruct (partition sep s) as [[head found] tail].
      destruct IH as (H1 & H2 & H3). simpl. rewrite E, H1.
      repeat split; [now rewrite H2 at 1 | exact H3].
Qed.

Lemma partition_no_sep (sep : ascii) (head : string) :
  has_char sep head = false -> partition sep head = (head, "", "").
Proof.
  induction head as [|c head IH]; simpl; [reflexivity|].
  intros H. apply orb_false_iff in H as [H1 H2].
  rewrite H1, (IH H2). reflexivity.
Qed.

Lemma partition_at_sep (sep : ascii) (head tail : string) :
  has_char sep head = false ->
  partition sep (head ++ String sep tail) = (head, String sep "", tail).
Proof.
  induction head as [|c head IH]; simpl.
  - intros _. now rewrite Ascii.eqb_refl.
  - intros H. apply orb_false_iff in H as [H1 H2].
    rewrite H1, (IH H2). reflexivity.
Qed.

Lemma get_known_error_code_head (stderr : string) :
  get_known_error_code stderr = first_known (first_line stderr) KNOWN_ERRORS.
Proof.
  unfold get_known_error_code, first_line.
  now destruct (partition newline stderr) as [[head found] tail].
Qed.

Lemma first_line_no_newline (head : string) :
  has_char newline head = false -> first_line head = head.
Proof. intros H. unfold first_line. now rewrite partition_no_sep. Qed.

Lemma first_line_append (head tail : string) :
  has_char newline head = false ->
  first_line (head ++ String newline tail) = head.
Proof. intros H. unfold first_line. now rewrite partition_at_sep. Qed.

(** ** Process invoker and classifier, as [get_data_row] uses them *)

(** The table of a classified failure has no column called like a metadata
    field, so no assignment is refused. *)
Lemma summary_row_empty_data (status : ErrorCode) (n_files n_parallel : Z) :
  summary_row make_empty_data status n_files n_parallel =
    inr (reduce_row make_empty_data status n_files n_parallel).
Proof. reflexivity. Qed.

Lemma get_data_row_failure nvim dir_ n_files n_parallel n_warmup duration :
  let proc := nvim dir_ n_parallel n_warmup duration in
  returncode proc <> 0 ->
  get_data_row nvim dir_ n_files n_parallel n_warmup duration =
    match get_known_error_code (proc_stderr proc) with
    | Some status =>
        if truthy status
        then (inr (reduce_row make_empty_data status n_files n_parallel), [])
        else (inl (CalledProcessError (returncode proc) (proc_stderr proc)),
              [])
    | None =>
        (inl (CalledProcessError (returncode proc) (proc_stderr proc)), [])
    end.
Proof.
  intros proc H. unfold get_data_row, benchmark_dir. fold proc.
  apply Z.eqb_neq in H. rewrite H.
  destruct (get_known_error_code (proc_stderr proc)) as [status|];
    [|reflexivity].
  now rewrite summary_row_empty_data.
Qed.

Lemma get_data_row_success nvim dir_ n_files n_parallel n_warmup duration :
  let proc := nvim dir_ n_parallel n_warmup duration in
  returncode proc = 0 ->
  fst (get_data_row nvim dir_ n_files n_parallel n_warmup duration) =
    match check_echo (stdout_int64 proc) (stdout proc) n_files n_parallel with
    | inl e => inl e
    | inr csv' => summary_row csv' "ok" n_files n_parallel
    end.
Proof.
  intros proc H. unfold get_data_row, benchmark_dir. fold proc.
  apply Z.eqb_eq in H. rewrite H.
  now destruct (check_echo (stdout_int64 proc) (stdout proc) n_files n_parallel).
Qed.

Lemma known_code_truthy (stderr : string) (status : ErrorCode) :
  get_known_error_code stderr = Some status -> truthy status = true.
Proof.
  rewrite get_known_error_code_head. simpl.
  destruct (str_in _ _); [intros [= <-]; reflexivity|].
  destruct (str_in _ _); [intros [= <-]; reflexivity | discriminate].
Qed.

(** C2.  Classification looks at the first line only, the text before the
    first newline: it answers [emfile] when that line contains
    "EMFILE: too many open files", otherwise [timeout] when it contains
    "promise timeout of 20000ms reached", otherwise [None]; what follows
    the first line never changes the answer; and on [None] the caller,
    [get_data_row], raises the process failure it caught, unchanged. *)
Theorem C2_classifier_first_line :
  (forall stderr,
      has_char newline (first_line stderr) = false /\
      (stderr = first_line stderr \/
       exists tail, stderr = first_line stderr ++ String newline tail)) /\
  (forall stderr,
      Occurs "EMFILE: too many open files" (first_line stderr) ->
      get_known_error_code stderr = Some "emfile") /\
  (forall stderr,
      ~ Occurs "EMFILE: too many open files" (first_line stderr) ->
      Occurs "promise timeout of 20000ms reached" (first_line stderr) ->
      get_known_error_code stderr = Some "timeout") /\
  (forall stderr,
      ~ Occurs "EMFILE: too many open files" (first_line stderr) ->
      ~ Occurs "promise timeout of 20000ms reached" (first_line stderr) ->
      get_known_error_code stderr = None) /\
  (forall head tail tail',
      has_char newline head = false ->
      get_known_error_code (head ++ String newline tail) =
        get_known_error_code head /\
      get_known_error_code (head ++ String newline tail) =
        get_known_error_code (head ++ String newline tail')) /\
  (forall nvim dir_ n_files n_parallel n_warmup duration,
      let proc := nvim dir_ n_parallel n_warmup duration in
      returncode proc <> 0 ->
      get_known_error_code (proc_stderr proc) = None ->
      fst (get_data_row nvim dir_ n_files n_parallel n_warmup duration) =
        inl (CalledProcessError (returncode proc) (proc_stderr proc))).
Proof.
  repeat apply conj.
  - intros stderr. unfold first_line.
    pose proof (partition_spec newline stderr) as H.
    destruct (partition newline stderr) as [[head found] tail]. simpl.
    destruct H as (H1 & H2 & [[-> ->] | ->]).
    + split; [exact H1 | left].
      rewrite H2 at 1. simpl. apply append_empty.
    + split; [exact H1 | right]. now exists tail.
  - intros stderr H. rewrite get_known_error_code_head. simpl.
    apply str_in_iff in H. now rewrite H.
  - intros stderr H1 H2. rewrite get_known_error_code_head. simpl.
    apply str_in_false_iff in H1. apply str_in_iff in H2.
    now rewrite H1, H2.
  - intros stderr H1 H2. rewrite get_known_error_code_head. simpl.
    apply str_in_false_iff in H1. apply str_in_false_iff in H2.
    now rewrite H1, H2.
  - intros head tail tail' H.
    rewrite !get_known_error_code_head, !first_line_append by exact H.
    now rewrite first_line_no_newline.
  - intros nvim dir_ n_files n_parallel n_warmup duration proc H1 H2.
    rewrite get_data_row_failure by exact H1. fold proc. now rewrite H2.
Qed.

(** ** Sorting and lookup *)

Lemma insert_perm {A} (le : A -> A -> bool) (x : A) (l : list A) :
  Permutation (insert le x l) (x :: l).
Proof.
  induction l as [|y l IH]; simpl; [reflexivity|].
  destruct (le x y); [reflexivity|].
  apply perm_trans with (y :: x :: l); [now apply perm_skip | apply perm_swap].
Qed.

Lemma isort_perm {A} (le : A -> A -> bool) (l : list A) :
  Permutation (isort le l) l.
Proof.
  induction l as [|x l IH]; simpl; [reflexivity|].
  apply perm_trans with (x :: isort le l);
    [apply insert_perm | now apply perm_skip].
Qed.

Lemma map_insert {A B} (f : A -> B) (leA : A -> A -> bool)
      (leB : B -> B -> bool) (x : A) (l : list A) :
  (forall a b, leA a b = leB (f a) (f b)) ->
  map f (insert leA x l) = insert leB (f x) (map f l).
Proof.
  intros H. induction l as [|y l IH]; simpl; [reflexivity|].
  rewrite <- H. destruct (leA x y); simpl; [reflexivity | now rewrite IH].
Qed.

Lemma keys_sort_index (s : Series) :
  keys (sort_index s) = isort key_leb (keys s).
Proof.
  unfold keys, sort_index. induction s as [|e s IH]; simpl; [reflexivity|].
  rewrite (map_insert fst entry_leb key_leb) by reflexivity.
  now rewrite IH.
Qed.

Lemma In_sort_index (e : key * value) (s : Series) :
  In e (sort_index s) <-> In e s.
Proof.
  split; apply Permutation_in;
    [apply isort_perm | apply Permutation_sym, isort_perm].
Qed.

Lemma key_eqb_eq (k1 k2 : key) : key_eqb k1 k2 = true <-> k1 = k2.
Proof.
  destruct k1 as [a1 b1], k2 as [a2 b2]. unfold key_eqb; simpl.
  rewrite andb_true_iff, !String.eqb_eq. split.
  - now intros [-> ->].
  - now intros [= -> ->].
Qed.

Lemma lookup_In (k : key) (v : value) (s : Series) :
  NoDup (keys s) -> In (k, v) s -> lookup k s = Some v.
Proof.
  unfold lookup. induction s as [|[k' v'] s IH]; simpl; [contradiction|].
  intros Hnd Hin. apply NoDup_cons_iff in Hnd as [Hk' Hnd].
  destruct (key_eqb k' k) eqn:E.
  - apply key_eqb_eq in E. subst k'. destruct Hin as [[= ->] | Hin].
    + reflexivity.
    + contradiction Hk'. unfold keys. now apply (in_map fst) in Hin.
  - destruct Hin as [[= -> ->] | Hin].
    + assert (key_eqb k k = true) by now apply key_eqb_eq. congruence.
    + now apply IH.
Qed.

(** ** The statistics block *)

Lemma keys_stats_unsorted (data : DataFrame) (stats : list Stat) :
  keys (swaplevel
          (concat_keys
             (map (fun s => (stat_label s, apply_stat data s)) stats))) =
  stat_keys (map fst data) stats.
Proof.
  unfold keys, swaplevel, stat_keys, concat_keys.
  induction stats as [|s stats IH]; simpl; [reflexivity|].
  rewrite !map_app. f_equal; [|exact IH].
  unfold apply_stat. rewrite !map_map.
  apply map_ext. now intros [label xs].
Qed.

Lemma keys_collect_stats (data : DataFrame) (stats : list Stat) :
  keys (collect_stats data stats) =
  isort key_leb (stat_keys (map fst data) stats).
Proof.
  unfold collect_stats. now rewrite keys_sort_index, keys_stats_unsorted.
Qed.

Lemma In_stat_keys (k : key) (labels : list string) (stats : list Stat) :
  In k (stat_keys labels stats) <->
  In (fst k) labels /\ exists s, In s stats /\ snd k = stat_label s.
Proof.
  unfold stat_keys. rewrite in_flat_map. split.
  - intros (s & Hs & Hk). apply in_map_iff in Hk as (l & <- & Hl).
    split; [exact Hl | now exists s].
  - intros (Hl & s & Hs & E). exists s. split; [exact Hs|].
    apply in_map_iff. exists (fst k). split; [|exact Hl].
    rewrite <- E. now destruct k.
Qed.

Lemma NoDup_stat_keys (labels : list string) (stats : list Stat) :
  NoDup labels -> NoDup (map stat_label stats) ->
  NoDup (stat_keys labels stats).
Proof.
  intros Hl. induction stats as [|s stats IH]; simpl; [constructor|].
  intros Hs. apply NoDup_cons_iff in Hs as [Hs Hnd].
  apply NoDup_app.
  - clear -Hl. induction Hl as [|l labels Hin _ IH]; simpl; constructor.
    + rewrite in_map_iff. intros (l' & [= ->] & H). contradiction.
    + exact IH.
  - now apply IH.
  - intros k Hk Hk'.
    apply in_map_iff in Hk as (l & <- & _).
    apply (In_stat_keys (l, stat_label s)) in Hk' as (_ & s' & Hs' & E).
    simpl in E. apply Hs. rewrite E. now apply in_map.
Qed.

Lemma NoDup_keys_collect_stats (data : DataFrame) (stats : list Stat) :
  NoDup (map fst data) -> NoDup (map stat_label stats) ->
  NoDup (keys (collect_stats data stats)).
Proof.
  intros H1 H2. rewrite keys_collect_stats.
  apply Permutation_NoDup with (stat_keys (map fst data) stats).
  - apply Permutation_sym, isort_perm.
  - now apply NoDup_stat_keys.
Qed.

Lemma In_collect_stats (data : DataFrame) (stats : list Stat)
      (c : string) (xs : list cell) (s : Stat) :
  In (c, xs) data -> In s stats ->
  In ((c, stat_label s), VFloat (reduce s xs)) (collect_stats data stats).
Proof.
  intros Hd Hs. unfold collect_stats. apply In_sort_index.
  unfold swaplevel. apply in_map_iff.
  exists ((stat_label s, c), VFloat (reduce s xs)). split; [reflexivity|].
  unfold concat_keys. apply in_flat_map.
  exists (stat_label s, apply_stat data s). split.
  - apply in_map_iff. now exists s.
  - apply in_map_iff. exists (c, reduce s xs). split; [reflexivity|].
    unfold apply_stat. apply in_map_iff. now exists (c, xs).
Qed.

Lemma NoDup_row_stats : NoDup (map stat_label row_stats).
Proof.
  simpl. repeat constructor; simpl; intuition discriminate.
Qed.

Lemma lookup_collect_stats (data : DataFrame) (c : string)
      (xs : list cell) (s : Stat) :
  NoDup (map fst data) -> In (c, xs) data ->
  lookup (c, stat_label s) (collect_stats data row_stats) =
    Some (VFloat (reduce s xs)).
Proof.
  intros Hnd Hin. apply lookup_In.
  - apply NoDup_keys_collect_stats; [exact Hnd | apply NoDup_row_stats].
  - apply In_collect_stats; [exact Hin|].
    destruct s; simpl; tauto.
Qed.



(** ** The shape of a row *)

Lemma has_column_false (label : string) (df : DataFrame) :
  has_column label df = false <-> ~ In label (map fst df).
Proof.
  unfold has_column. induction df as [|[l xs] df IH]; simpl.
  - tauto.
  - rewrite orb_false_iff, IH, String.eqb_neq. tauto.
Qed.

Lemma collect_stats_entry (data : DataFrame) (stats : list Stat)
      (k : key) (v : value) :
  In (k, v) (collect_stats data stats) ->
  In (fst k) (map fst data) /\
  (exists s, In s stats /\ snd k = stat_label s) /\
  exists x, v = VFloat x.
Proof.
  intros H. split; [|split].
  - apply (in_map fst) in H. fold (keys (collect_stats data stats)) in H.
    rewrite keys_collect_stats in H.
    apply (Permutation_in _ (isort_perm _ _)) in H.
    now apply In_stat_keys in H.
  - apply (in_map fst) in H. fold (keys (collect_stats data stats)) in H.
    rewrite keys_collect_stats in H.
    apply (Permutation_in _ (isort_perm _ _)) in H.
    now apply In_stat_keys in H.
  - unfold collect_stats in H. apply (proj1 (In_sort_index _ _)) in H.
    unfold swaplevel, concat_keys in H.
    apply in_map_iff in H as ([[a b] w] & [= <- <-] & H).
    apply in_flat_map in H as ([k' part] & _ & H).
    apply in_map_iff in H as ([label x] & [= _ _ <-] & _).
    now exists x.
Qed.

Lemma stat_label_nonempty (s : Stat) : stat_label s <> "".
Proof. now destruct s. Qed.

Lemma store_new (label : string) (v : value) (s : Series) :
  (forall k x, In (k, x) s -> fst k <> label) ->
  store label v s = (s ++ [((label, ""), v)])%list.
Proof.
  intros H. unfold store, has_label.
  replace (existsb _ s) with false; [reflexivity|].
  symmetry. apply not_true_is_false. intros E.
  apply existsb_exists in E as ([[a b] x] & Hin & E).
  apply String.eqb_eq in E. now apply (H _ _ Hin).
Qed.

(** When no column is called like a metadata field, the row is the sorted
    block of statistics followed by the three metadata entries. *)
Lemma reduce_row_shape (csv : DataFrame) (status : ErrorCode)
      (n_files n_parallel : Z) :
  has_column "status" csv = false ->
  has_column "n_files" csv = false ->
  has_column "n_parallel" csv = false ->
  reduce_row csv status n_files n_parallel =
    (collect_stats csv row_stats ++ metadata status n_files n_parallel)%list.
Proof.
  intros H1 H2 H3. apply has_column_false in H1, H2, H3.
  unfold reduce_row, metadata.
  assert (fresh : forall label, ~ In label (map fst csv) ->
                    forall k x, In (k, x) (collect_stats csv row_stats) ->
                                fst k <> label).
  { intros label Hl k x Hin E. apply collect_stats_entry in Hin as [Hin _].
    now rewrite E in Hin. }
  rewrite (store_new "status") by now apply fresh.
  rewrite (store_new "n_files").
  2:{ intros k x Hin. apply in_app_or in Hin as [Hin | [[= <- _] | []]].
      - now apply (fresh "n_files" H2 k x).
      - discriminate. }
  rewrite (store_new "n_parallel").
  2:{ intros k x Hin.
      apply in_app_or in Hin as [Hin | [[= <- _] | []]].
      - apply in_app_or in Hin as [Hin | [[= <- _] | []]].
        + now apply (fresh "n_parallel" H3 k x).
        + discriminate.
      - discriminate. }
  now rewrite <- !app_assoc.
Qed.

Lemma lookup_app_r (k : key) (s1 s2 : Series) :
  (forall x, ~ In (k, x) s1) -> lookup k (s1 ++ s2)%list = lookup k s2.
Proof.
  unfold lookup. induction s1 as [|[k' v'] s1 IH]; simpl; intros H.
  - reflexivity.
  - destruct (key_eqb k' k) eqn:E.
    + apply key_eqb_eq in E. subst k'. exfalso. apply (H v'). now left.
    + apply IH. intros x Hx. apply (H x). now right.
Qed.

Lemma has_column_true (label : string) (df : DataFrame) :
  has_column label df = true <-> In label (map fst df).
Proof.
  unfold has_column. rewrite existsb_exists. split.
  - intros ([l xs] & Hin & E). apply String.eqb_eq in E. subst l.
    now apply (in_map fst) in Hin.
  - intros Hin. apply in_map_iff in Hin as ([l xs] & E & Hin). simpl in E.
    subst l. exists (label, xs). split; [exact Hin | apply String.eqb_refl].
Qed.

(** The statistics have an entry for a first-level label exactly when the
    table has the column, and they are all floats. *)
Lemma has_label_collect_stats (label : string) (csv : DataFrame) :
  has_label label (collect_stats csv row_stats) = has_column label csv.
Proof.
  apply Bool.eq_true_iff_eq. rewrite has_column_true. unfold has_label.
  rewrite existsb_exists. split.
  - intros ([[a b] x] & Hin & E). apply String.eqb_eq in E. subst a.
    now apply collect_stats_entry in Hin as [Hin _].
  - intros Hin. apply in_map_iff in Hin as ([l xs] & E & Hin). simpl in E.
    subst l. exists ((label, stat_label Mean), VFloat (reduce Mean xs)).
    split; [|apply String.eqb_refl].
    apply In_collect_stats; [exact Hin | now left].
Qed.

Lemma is_float64_collect_stats (csv : DataFrame) (stats : list Stat) :
  is_float64 (collect_stats csv stats) = true.
Proof.
  apply forallb_forall. intros [k v] Hin.
  apply collect_stats_entry in Hin as (_ & _ & x & ->). reflexivity.
Qed.

(** The first assignment is refused exactly when the table has a column
    called [status]; the other two store integers and are never refused. *)
Lemma summary_row_spec (csv : DataFrame) (status : ErrorCode)
      (n_files n_parallel : Z) :
  summary_row csv status n_files n_parallel =
    if has_column "status" csv
    then inl (TypeError (VStr status))
    else inr (reduce_row csv status n_files n_parallel).
Proof.
  unfold summary_row, reduce_row, setitem, refuses.
  rewrite has_label_collect_stats, is_float64_collect_stats.
  destruct (has_column "status" csv); [reflexivity|]. cbn [andb].
  now rewrite !andb_false_r.
Qed.

(** What the [else] branch leaves when it does not raise. *)
Lemma check_echo_inr int64 (csv csv' : DataFrame) (n_files n_parallel : Z) :
  check_echo int64 csv n_files n_parallel = inr csv' ->
  map fst csv' = metric_labels csv /\
  has_column "n_files" csv' = false /\
  has_column "n_parallel" csv' = false /\
  has_column "status" csv' = has_column "status" csv /\
  forall c xs, In (c, xs) csv' -> In (c, xs) csv.
Proof.
  unfold check_echo.
  destruct (getitem "n_files" csv) as [e|files_col]; [discriminate|].
  destruct (negb (all_eq _ files_col n_files)); [discriminate|].
  destruct (getitem "n_parallel" csv) as [e|parallel_col]; [discriminate|].
  destruct (negb (all_eq _ parallel_col n_parallel)); [discriminate|].
  unfold drop. destruct (find _ _); [discriminate|]. intros [= <-].
  clear. unfold metric_labels. repeat split.
  - induction csv as [|[l xs] csv IH]; simpl; [reflexivity|].
    destruct (negb _); simpl; now rewrite IH.
  - apply has_column_false. intros H. apply in_map_iff in H as ([l xs] & E & H).
    apply filter_In in H as [_ H]. simpl in E. subst l. discriminate.
  - apply has_column_false. intros H. apply in_map_iff in H as ([l xs] & E & H).
    apply filter_In in H as [_ H]. simpl in E. subst l. discriminate.
  - unfold has_column. induction csv as [|[l xs] csv IH]; simpl; [reflexivity|].
    destruct (String.eqb l "n_files") eqn:E1; simpl.
    { apply String.eqb_eq in E1. subst l. exact IH. }
    destruct (String.eqb l "n_parallel") eqn:E2; simpl.
    { apply String.eqb_eq in E2. subst l. exact IH. }
    now rewrite IH.
  - intros c xs H. now apply filter_In in H.
Qed.

(** The row of a classified failure, entry by entry. *)
Lemma reduce_row_empty_data (status : ErrorCode) (n_files n_parallel : Z) :
  reduce_row make_empty_data status n_files n_parallel =
    ([ (("setup_ms", "max"), VFloat nan);
       (("setup_ms", "mean"), VFloat nan);
       (("setup_ms", "median"), VFloat nan);
       (("setup_ms", "min"), VFloat nan);
       (("setup_ms", "std"), VFloat nan);
       (("time_ms", "max"), VFloat nan);
       (("time_ms", "mean"), VFloat nan);
       (("time_ms", "median"), VFloat nan);
       (("time_ms", "min"), VFloat nan);
       (("time_ms", "std"), VFloat nan) ]
       ++ metadata status n_files n_parallel)%list.
Proof. reflexivity. Qed.

(** The outcome of a call that yields a row: the tag, and the table that
    was reduced. *)
Lemma get_data_row_inr nvim dir_ n_files n_parallel n_warmup duration row :
  let proc := nvim dir_ n_parallel n_warmup duration in
  fst (get_data_row nvim dir_ n_files n_parallel n_warmup duration) = inr row ->
  (returncode proc = 0 /\
   exists csv', check_echo (stdout_int64 proc) (stdout proc) n_files n_parallel = inr csv' /\
                has_column "status" csv' = false /\
                row = reduce_row csv' "ok" n_files n_parallel) \/
  (returncode proc <> 0 /\
   exists status, get_known_error_code (proc_stderr proc) = Some status /\
                  row = reduce_row make_empty_data status n_files n_parallel).
Proof.
  intros proc H. destruct (Z.eq_dec (returncode proc) 0) as [E|E].
  - left. split; [exact E|].
    rewrite get_data_row_success in H by exact E. fold proc in H.
    destruct (check_echo (stdout_int64 proc) (stdout proc) n_files n_parallel) as [e|csv'];
      [discriminate|].
    rewrite summary_row_spec in H.
    destruct (has_column "status" csv') eqn:S; [discriminate|].
    injection H as <-. now exists csv'.
  - right. split; [exact E|].
    rewrite get_data_row_failure in H by exact E. fold proc in H.
    destruct (get_known_error_code (proc_stderr proc)) as [status|] eqn:K;
      [|discriminate].
    rewrite (known_code_truthy _ _ K) in H. injection H as <-.
    now exists status.
Qed.

(** C4.  For every grid point and every outcome, the row that
    [get_data_row] returns is the block of (metric, statistic) entries
    followed by [status], [n_files] and [n_parallel], in this order:
    [status] is the outcome tag ("ok" after a successful call, the sentinel
    of the classifier after a failed one), and [n_files] and [n_parallel]
    are the requested values. *)
Theorem C4_metadata_appended nvim dir_ n_files n_parallel n_warmup duration
        row :
  let proc := nvim dir_ n_parallel n_warmup duration in
  fst (get_data_row nvim dir_ n_files n_parallel n_warmup duration) = inr row ->
  exists block tag,
    row = (block ++ metadata tag n_files n_parallel)%list /\
    (forall k v, In (k, v) block ->
                 (exists s, snd k = stat_label s) /\ exists x, v = VFloat x) /\
    (returncode proc = 0 -> tag = "ok") /\
    (returncode proc <> 0 ->
     get_known_error_code (proc_stderr proc) = Some tag) /\
    lookup ("status", "") row = Some (VStr tag) /\
    lookup ("n_files", "") row = Some (VInt n_files) /\
    lookup ("n_parallel", "") row = Some (VInt n_parallel).
Proof.
  intros proc H.
  assert (shape : exists csv tag,
             row = (collect_stats csv row_stats
                      ++ metadata tag n_files n_parallel)%list /\
             (returncode proc = 0 -> tag = "ok") /\
             (returncode proc <> 0 ->
              get_known_error_code (proc_stderr proc) = Some tag)).
  { apply get_data_row_inr in H. fold proc in H.
    destruct H as [(E & csv' & Hc & H1 & ->) | (E & status & K & ->)].
    - exists csv', "ok". split; [|split; [reflexivity | contradiction]].
      apply check_echo_inr in Hc as (_ & H2 & H3 & _ & _).
      now apply reduce_row_shape.
    - exists make_empty_data, status.
      split; [apply reduce_row_empty_data|].
      split; [contradiction | now intros _]. }
  destruct shape as (csv & tag & -> & Hok & Hfail).
  exists (collect_stats csv row_stats), tag.
  assert (block : forall k v, In (k, v) (collect_stats csv row_stats) ->
                    (exists s, snd k = stat_label s) /\ exists x, v = VFloat x).
  { intros k v Hin. apply collect_stats_entry in Hin as (_ & (s & _ & E) & X).
    split; [now exists s | exact X]. }
  assert (skip : forall label x,
             ~ In ((label, ""), x) (collect_stats csv row_stats)).
  { intros label x Hin. apply block in Hin as [[s E] _]. simpl in E.
    symmetry in E. now apply stat_label_nonempty in E. }
  split; [reflexivity|]. split; [exact block|].
  split; [exact Hok|]. split; [exact Hfail|].
  repeat split; rewrite lookup_app_r by apply skip; reflexivity.
Qed.

Lemma lookup_metadata (csv : DataFrame) (tag : ErrorCode)
      (n_files n_parallel : Z) :
  let row := (collect_stats csv row_stats
                ++ metadata tag n_files n_parallel)%list in
  lookup ("status", "") row = Some (VStr tag) /\
  lookup ("n_files", "") row = Some (VInt n_files) /\
  lookup ("n_parallel", "") row = Some (VInt n_parallel).
Proof.
  assert (skip : forall label x,
             ~ In ((label, ""), x) (collect_stats csv row_stats)).
  { intros label x Hin.
    apply collect_stats_entry in Hin as (_ & (s & _ & E) & _).
    simpl in E. symmetry in E. now apply stat_label_nonempty in E. }
  repeat split; rewrite lookup_app_r by apply skip; reflexivity.
Qed.

(** C3 (as amended).  At a grid point, when the trial table of the
    successful call has exactly the metric columns [setup_ms] and
    [time_ms] next to the echoed ones, its row and the row of a classified
    failure have the same labels in the same order: the ten (metric,
    statistic) pairs and the three metadata labels.  In the failure row
    every statistic is present and missing; the rows differ in the values
    and in [status]. *)
Theorem C3_same_keys nvim_ok nvim_fail dir_ n_files n_parallel n_warmup
        duration row_ok row_fail :
  let ok := nvim_ok dir_ n_parallel n_warmup duration in
  let failed := nvim_fail dir_ n_parallel n_warmup duration in
  returncode ok = 0 ->
  returncode failed <> 0 ->
  Permutation (metric_labels (stdout ok)) ["setup_ms"; "time_ms"] ->
  fst (get_data_row nvim_ok dir_ n_files n_parallel n_warmup duration)
    = inr row_ok ->
  fst (get_data_row nvim_fail dir_ n_files n_parallel n_warmup duration)
    = inr row_fail ->
  keys row_ok = keys row_fail /\
  keys row_fail =
    [ ("setup_ms", "max"); ("setup_ms", "mean"); ("setup_ms", "median");
      ("setup_ms", "min"); ("setup_ms", "std");
      ("time_ms", "max"); ("time_ms", "mean"); ("time_ms", "median");
      ("time_ms", "min"); ("time_ms", "std");
      ("status", ""); ("n_files", ""); ("n_parallel", "") ] /\
  (forall metric s,
      In metric ["setup_ms"; "time_ms"] ->
      missing (lookup (metric, stat_label s) row_fail)) /\
  lookup ("status", "") row_ok = Some (VStr "ok") /\
  exists code,
    get_known_error_code (proc_stderr failed) = Some code /\
    lookup ("status", "") row_fail = Some (VStr code).
Proof.
  intros ok failed Eok Efail Hperm Hok Hfail.
  apply get_data_row_inr in Hok. fold ok in Hok.
  destruct Hok as [(_ & csv' & Hc & _ & ->) | (E & _)]; [|contradiction].
  apply get_data_row_inr in Hfail. fold failed in Hfail.
  destruct Hfail as [(E & _) | (_ & code & K & ->)]; [contradiction|].
  apply check_echo_inr in Hc as (Hl & H2 & H3 & _ & _).
  rewrite <- Hl in Hperm.
  assert (H1 : has_column "status" csv' = false).
  { apply has_column_false. intros Hin.
    apply (Permutation_in _ Hperm) in Hin.
    destruct Hin as [Hin | [Hin | []]]; discriminate Hin. }
  rewrite (reduce_row_shape csv') by assumption.
  split; [|split; [reflexivity | split; [|split]]].
  - unfold keys at 1. rewrite map_app.
    fold (keys (collect_stats csv' row_stats)).
    rewrite keys_collect_stats.
    apply Permutation_sym, Permutation_length_2_inv in Hperm.
    destruct Hperm as [-> | ->]; reflexivity.
  - intros metric s [<- | [<- | []]]; destruct s; reflexivity.
  - apply lookup_metadata.
  - exists code. split; [exact K | reflexivity].
Qed.

(** ** The grid traversal *)

Lemma inner_loop_points nvim n_files n_warmup duration parallel rows err :
  inner_loop nvim (gendir n_files) n_files n_warmup duration parallel rows err =
  sweep_points nvim n_warmup duration (map (pair n_files) parallel) rows err.
Proof.
  revert rows err. induction parallel as [|n_parallel rest IH]; intros; simpl.
  - reflexivity.
  - destruct (get_data_row _ _ _ _ _ _) as [[e|row] printed];
      [reflexivity | apply IH].
Qed.

Lemma sweep_points_app nvim n_warmup duration points1 points2 rows err :
  sweep_points nvim n_warmup duration (points1 ++ points2) rows err =
  match sweep_points nvim n_warmup duration points1 rows err with
  | (None, rows', err') =>
      sweep_points nvim n_warmup duration points2 rows' err'
  | aborted => aborted
  end.
Proof.
  revert rows err. induction points1 as [|[n_files n_parallel] rest IH];
    intros; simpl.
  - reflexivity.
  - destruct (get_data_row _ _ _ _ _ _) as [[e|row] printed];
      [reflexivity | apply IH].
Qed.

(** The nested loops visit the grid points in order. *)
Lemma outer_loop_points nvim n_warmup duration files parallel rows err :
  outer_loop nvim n_warmup duration files parallel rows err =
  sweep_points nvim n_warmup duration (grid files parallel) rows err.
Proof.
  revert rows err. induction files as [|n_files rest IH]; intros; simpl.
  - reflexivity.
  - rewrite sweep_points_app, inner_loop_points.
    destruct (sweep_points _ _ _ (map _ _) _ _) as [[[e|] rows'] err'];
      [reflexivity | apply IH].
Qed.

(** The traversal stops at the first point that raises, with the rows of
    the points before it. *)
Lemma sweep_points_abort nvim n_warmup duration before point after
      new_rows e rows err :
  Forall2 (fun pt row => point_result nvim n_warmup duration pt = inr row)
          before new_rows ->
  point_result nvim n_warmup duration point = inl e ->
  exists err',
    sweep_points nvim n_warmup duration (before ++ point :: after) rows err =
    (Some e, (rows ++ new_rows)%list, err').
Proof.
  intros Hrows Hfail. revert rows err.
  induction Hrows as [|[n_files n_parallel] row before new_rows Hrow _ IH];
    intros rows err; simpl.
  - destruct point as [n_files n_parallel].
    unfold point_result in Hfail. simpl in Hfail.
    destruct (get_data_row _ _ _ _ _ _) as [res printed]. simpl in Hfail.
    subst res. rewrite app_nil_r. now eexists.
  - unfold point_result in Hrow. simpl in Hrow.
    destruct (get_data_row _ _ _ _ _ _) as [res printed]. simpl in Hrow.
    subst res. destruct (IH (rows ++ [row])%list (err ++ printed)%list)
      as [err' ->].
    rewrite <- app_assoc. now eexists.
Qed.

(** When no point raises, the traversal yields one row per point. *)
Lemma sweep_points_complete nvim n_warmup duration points new_rows rows err :
  Forall2 (fun pt row => point_result nvim n_warmup duration pt = inr row)
          points new_rows ->
  exists err',
    sweep_points nvim n_warmup duration points rows err =
    (None, (rows ++ new_rows)%list, err').
Proof.
  intros Hrows. revert rows err.
  induction Hrows as [|[n_files n_parallel] row points new_rows Hrow _ IH];
    intros rows err; simpl.
  - rewrite app_nil_r. now eexists.
  - unfold point_result in Hrow. simpl in Hrow.
    destruct (get_data_row _ _ _ _ _ _) as [res printed]. simpl in Hrow.
    subst res. destruct (IH (rows ++ [row])%list (err ++ printed)%list)
      as [err' ->].
    rewrite <- app_assoc. now eexists.
Qed.

Lemma main_inner_abort nvim files_range parallel_range n_warmup duration
      output before point after rows e :
  grid (range_elems files_range) (range_elems parallel_range)
    = (before ++ point :: after)%list ->
  Forall2 (fun pt row => point_result nvim n_warmup duration pt = inr row)
          before rows ->
  point_result nvim n_warmup duration point = inl e ->
  exists err,
    main_inner nvim files_range parallel_range n_warmup duration output =
    (inl e,
     match rows with
     | [] => output
     | _ => write output (to_csv (frame_of_rows rows) (String tab "")
                                 default_na_rep)
     end,
     err).
Proof.
  intros Hgrid Hrows Hfail. unfold main_inner.
  rewrite outer_loop_points, Hgrid.
  destruct (sweep_points_abort nvim n_warmup duration before point after
                               rows e [] [] Hrows Hfail) as [err ->].
  simpl. exists err. now destruct rows.
Qed.

Lemma main_inner_complete nvim files_range parallel_range n_warmup duration
      output rows :
  Forall2 (fun pt row => point_result nvim n_warmup duration pt = inr row)
          (grid (range_elems files_range) (range_elems parallel_range))
          rows ->
  exists err,
    main_inner nvim files_range parallel_range n_warmup duration output =
    match rows with
    | [] => (inl (ValueError "no data"), output, err)
    | _ => (inr tt,
            write output (to_csv (frame_of_rows rows) (String tab "") "nan"),
            err)
    end.
Proof.
  intros Hrows. unfold main_inner. rewrite outer_loop_points.
  destruct (sweep_points_complete nvim n_warmup duration _ rows [] [] Hrows)
    as [err ->].
  simpl. exists err. now destruct rows.
Qed.

(** ** The frame of the report *)

Lemma records_length (rows : list Series) :
  List.length (records (frame_of_rows rows)) = List.length rows.
Proof. unfold frame_of_rows. simpl. apply length_map. Qed.

Lemma data_lines_length (df : Report) (na_rep : string) :
  List.length (data_lines df na_rep) = List.length (records df).
Proof.
  unfold data_lines. rewrite length_map, length_combine, length_seq.
  apply Nat.min_id.
Qed.



(** ** Sweep controller *)


(** C10.  When the first grid point raises, so that no row has been
    appended, [main_inner] raises the same exception and leaves the sink as
    it was: nothing is written, not even a header. *)
Theorem C10_no_rows_sink_untouched nvim files_range parallel_range n_warmup
        duration output point after e :
  grid (range_elems files_range) (range_elems parallel_range)
    = point :: after ->
  point_result nvim n_warmup duration point = inl e ->
  exists err,
    main_inner nvim files_range parallel_range n_warmup duration output =
      (inl e, output, err).
Proof.
  intros Hgrid Hfail.
  exact (main_inner_abort nvim files_range parallel_range n_warmup duration
           output [] point after [] e Hgrid (Forall2_nil _) Hfail).
Qed.

Lemma grid_empty (files parallel : list Z) :
  files = [] \/ parallel = [] -> grid files parallel = [].
Proof.
  intros [-> | ->]; [reflexivity|].
  unfold grid. induction files; simpl; [reflexivity | assumption].
Qed.

(** C6.  When the outer or the inner range is empty, [main_inner] raises
    [ValueError("no data")], which is not a process failure, and the sink
    and the error channel are left as they were. *)
Theorem C6_empty_range nvim files_range parallel_range n_warmup duration
        output :
  range_elems files_range = [] \/ range_elems parallel_range = [] ->
  main_inner nvim files_range parallel_range n_warmup duration output =
    (inl (ValueError "no data"), output, []) /\
  forall rc stderr, ValueError "no data" <> CalledProcessError rc stderr.
Proof.
  intros H. split; [|discriminate].
  unfold main_inner. now rewrite outer_loop_points, (grid_empty _ _ H).
Qed.

(** ** The assertions on the echoed parameters *)

Lemma float64_of_int_exact (n : Z) :
  Z.abs n <= 2 ^ 53 -> float64_of_int n = n.
Proof.
  intros H. unfold float64_of_int.
  destruct (Z.abs n <? 2 ^ 53) eqn:E; [reflexivity|].
  apply Z.ltb_ge in E.
  change (2 ^ 53) with 9007199254740992 in H, E.
  assert (C : n = 9007199254740992 \/ n = - 9007199254740992) by lia.
  destruct C as [-> | ->]; reflexivity.
Qed.

(** Columns that are uniformly equal to the requested number pass the
    comparison, whatever their dtype. *)
Lemma all_eq_uniform (int64 : bool) (column : list cell) (n : Z) :
  uniform column n -> all_eq int64 column n = true.
Proof.
  unfold all_eq, uniform. rewrite forallb_forall, Forall_forall.
  intros H c Hc. destruct (H c Hc) as (q & -> & E). simpl.
  apply Qeq_bool_iff in E. now rewrite E.
Qed.

(** Up to [2 ^ 53] the comparison is exact for both dtypes. *)
Lemma all_eq_exact (int64 : bool) (column : list cell) (n : Z) :
  Z.abs n <= 2 ^ 53 -> all_eq int64 column n = true -> uniform column n.
Proof.
  intros B. unfold all_eq, uniform. rewrite forallb_forall, Forall_forall.
  intros H c Hc. specialize (H c Hc).
  destruct c as [q|]; [|discriminate]. simpl in H.
  rewrite (float64_of_int_exact n B) in H.
  exists q. split; [reflexivity|]. apply Qeq_bool_iff.
  destruct (Qeq_bool q (inject_Z n)); [reflexivity|].
  now destruct int64.
Qed.

Lemma getitem_has_column (label : string) (df : DataFrame) (xs : list cell) :
  getitem label df = inr xs -> has_column label df = true.
Proof.
  unfold getitem, has_column.
  destruct (find _ df) as [[l ys]|] eqn:E; [intros _ | discriminate].
  apply find_some in E as [Hin E]. apply existsb_exists.
  now exists (l, ys).
Qed.

Lemma check_echo_uniform int64 (csv : DataFrame) (n_files n_parallel : Z)
      (files_col parallel_col : list cell) :
  getitem "n_files" csv = inr files_col ->
  getitem "n_parallel" csv = inr parallel_col ->
  uniform files_col n_files -> uniform parallel_col n_parallel ->
  exists csv', check_echo int64 csv n_files n_parallel = inr csv'.
Proof.
  intros Hf Hp Uf Up. unfold check_echo. rewrite Hf, Hp.
  rewrite (all_eq_uniform _ _ _ Uf), (all_eq_uniform _ _ _ Up). simpl.
  unfold drop. simpl.
  rewrite (getitem_has_column _ _ _ Hf), (getitem_has_column _ _ _ Hp).
  simpl. eexists. reflexivity.
Qed.

(** C8 (as amended).  After a successful call whose table has both echoed
    columns: when the two columns are uniformly equal to the requested grid
    point, no assertion fails, and [get_data_row] yields a row unless the
    table has a column called [status]; when the requested numbers are at
    most [2 ^ 53] in magnitude and some echoed value differs,
    [get_data_row] raises [AssertionError] instead of yielding a row, and a
    sweep that reaches this point raises that assertion error. *)
Theorem C8_echo_assertions nvim dir_ n_files n_parallel n_warmup duration
        files_col parallel_col :
  let proc := nvim dir_ n_parallel n_warmup duration in
  returncode proc = 0 ->
  getitem "n_files" (stdout proc) = inr files_col ->
  getitem "n_parallel" (stdout proc) = inr parallel_col ->
  (uniform files_col n_files /\ uniform parallel_col n_parallel ->
   (forall csv,
       fst (get_data_row nvim dir_ n_files n_parallel n_warmup duration)
         <> inl (AssertionError csv)) /\
   (has_column "status" (stdout proc) = false ->
    exists row,
      fst (get_data_row nvim dir_ n_files n_parallel n_warmup duration)
        = inr row)) /\
  (Z.abs n_files <= 2 ^ 53 -> Z.abs n_parallel <= 2 ^ 53 ->
   ~ (uniform files_col n_files /\ uniform parallel_col n_parallel) ->
   fst (get_data_row nvim dir_ n_files n_parallel n_warmup duration)
     = inl (AssertionError (stdout proc)) /\
   forall files_range parallel_range output before after rows,
     dir_ = gendir n_files ->
     grid (range_elems files_range) (range_elems parallel_range)
       = (before ++ (n_files, n_parallel) :: after)%list ->
     Forall2 (fun pt row => point_result nvim n_warmup duration pt = inr row)
             before rows ->
     exists output' err,
       main_inner nvim files_range parallel_range n_warmup duration output
         = (inl (AssertionError (stdout proc)), output', err)).
Proof.
  intros proc Hrc Hf Hp.
  pose proof (get_data_row_success nvim dir_ n_files n_parallel n_warmup
                                   duration Hrc) as Hrow.
  fold proc in Hrow. split.
  - intros [Uf Up].
    destruct (check_echo_uniform (stdout_int64 proc) _ _ _ _ _ Hf Hp Uf Up)
      as [csv' Hc].
    rewrite Hc, summary_row_spec in Hrow.
    apply check_echo_inr in Hc as (_ & _ & _ & H1 & _). rewrite H1 in Hrow.
    split.
    + intros csv. rewrite Hrow.
      destruct (has_column "status" (stdout proc)); discriminate.
    + intros Hs. rewrite Hs in Hrow. eexists. exact Hrow.
  - intros Bf Bp Hno. unfold check_echo in Hrow. rewrite Hf, Hp in Hrow.
    assert (Hassert : fst (get_data_row nvim dir_ n_files n_parallel
                                        n_warmup duration)
                      = inl (AssertionError (stdout proc))).
    { destruct (all_eq _ files_col n_files) eqn:Ef; [|exact Hrow].
      destruct (all_eq _ parallel_col n_parallel) eqn:Ep; [|exact Hrow].
      contradiction Hno. split.
      - exact (all_eq_exact _ _ _ Bf Ef).
      - exact (all_eq_exact _ _ _ Bp Ep). }
    split; [exact Hassert|].
    intros files_range parallel_range output before after rows -> Hgrid Hrows.
    destruct (main_inner_abort nvim files_range parallel_range n_warmup
                duration output before (n_files, n_parallel) after rows
                (AssertionError (stdout proc)) Hgrid Hrows Hassert)
      as [err ->].
    eexists _, _. reflexivity.
Qed.

(** ** Missing values in the two reports *)

(** The report of a completed sweep prints a missing value as [nan]; the
    report saved when the sweep is aborted relies on the default of
    [na_rep] and prints an empty field. *)
Lemma render_missing :
  render "nan" (VFloat nan) = "nan" /\ render default_na_rep (VFloat nan) = "".
Proof. split; reflexivity. Qed.

(** C5 (the code departs from the specification).  A worker that runs out of file
    descriptors at the point (0, 0) and crashes at (0, 1): the sweep is
    aborted with one row saved, and the saved report holds an empty field
    for each of the ten missing statistics.  The same row in the report of
    a sweep that completes is printed with [nan]. *)
Theorem C5_partial_report_empty_fields :
  main_inner worker_emfile_then_crash files_0 parallel_0_1 10 2%Q [] =
    (inl (CalledProcessError 1 "boom"),
     [ {| csv_sep := String tab "";
          csv_lines :=
            [ [ ""; "setup_ms"; "setup_ms"; "setup_ms"; "setup_ms";
                "setup_ms"; "time_ms"; "time_ms"; "time_ms"; "time_ms";
                "time_ms"; "status"; "n_files"; "n_parallel" ];
              [ ""; "max"; "mean"; "median"; "min"; "std";
                "max"; "mean"; "median"; "min"; "std"; ""; ""; "" ];
              [ "0"; ""; ""; ""; ""; ""; ""; ""; ""; ""; "";
                "emfile"; "0"; "0" ] ] |} ],
     []) /\
  main_inner worker_emfile files_0 files_0 10 2%Q [] =
    (inr tt,
     [ {| csv_sep := String tab "";
          csv_lines :=
            [ [ ""; "setup_ms"; "setup_ms"; "setup_ms"; "setup_ms";
                "setup_ms"; "time_ms"; "time_ms"; "time_ms"; "time_ms";
                "time_ms"; "status"; "n_files"; "n_parallel" ];
              [ ""; "max"; "mean"; "median"; "min"; "std";
                "max"; "mean"; "median"; "min"; "std"; ""; ""; "" ];
              [ "0"; "nan"; "nan"; "nan"; "nan"; "nan"; "nan"; "nan";
                "nan"; "nan"; "nan"; "emfile"; "0"; "0" ] ] |} ],
     []).
Proof. split; reflexivity. Qed.

(** ** Entry points *)

(** [main] turns a process failure of the sweep into the return value 1,
    after the traceback, the separator and the captured text. *)
Lemma main_process_failure args nvim files_range parallel_range rc stderr
      output err :
  args_nvim args = Some nvim ->
  make_range (args_files_range args) = inr files_range ->
  match args_parallel_range args with
  | Some triple => make_range triple
  | None => inr files_range
  end = inr parallel_range ->
  main_inner nvim files_range parallel_range (args_n_warmup args)
             (args_duration args) (args_output args)
    = (inl (CalledProcessError rc stderr), output, err) ->
  main args =
    (inr 1, output,
     (err ++ [ Traceback (CalledProcessError rc stderr);
               Printed separator;
               Printed ("catured error output:"
                          ++ String newline stderr) ])%list).
Proof.
  intros H1 H2 H3 H4. unfold main. now rewrite H1, H2, H3, H4.
Qed.

(** Whatever [main] returns, the script ends with status 0. *)
Lemma run_script_after_return args n output err :
  main args = (inr n, output, err) -> run_script args = (0, output, err).
Proof. intros H. unfold run_script. now rewrite H. Qed.

(** C9 (the code departs from the specification).  With a worker whose failure is
    not recognised, [main] writes the traceback, the separator and the
    captured text on the error channel and returns 1; the script does not
    pass this value on, and the process ends with status 0, as it does
    after a sweep that succeeds. *)
Theorem C9_exit_status_after_failure :
  main (sample_args worker_crash) =
    (inr 1, [],
     [ Traceback (CalledProcessError 1 "boom");
       Printed "------------------------------";
       Printed ("catured error output:" ++ String newline "boom") ]) /\
  fst (fst (run_script (sample_args worker_crash))) = 0 /\
  fst (fst (main (sample_args worker_one_trial))) = inr 0 /\
  fst (fst (run_script (sample_args worker_one_trial))) = 0.
Proof. repeat split; reflexivity. Qed.

(** * Further properties of the code *)

(** ** [gendir] *)

(** X1.  [gendir] creates the files numbered 1 to [n_files], in this order, and
    none when [n_files] is zero or negative. *)
Theorem gendir_files (n_files : Z) :
  gendir n_files = map Z.of_nat (seq 1 (Z.to_nat n_files)) /\
  List.length (gendir n_files) = Z.to_nat n_files /\
  (n_files <= 0 -> gendir n_files = []).
Proof.
  assert (E : gendir n_files = map Z.of_nat (seq 1 (Z.to_nat n_files))).
  { unfold gendir, range_elems, range_len. cbn [start stop step].
    change (0 <? 1) with true. cbv iota.
    replace (Z.to_nat (if 1 <? 1 + n_files
                       then (1 + n_files - 1 - 1) / 1 + 1 else 0))
      with (Z.to_nat n_files).
    2:{ destruct (Z.ltb_spec 1 (1 + n_files)).
        - rewrite Z.div_1_r. f_equal. lia.
        - lia. }
    rewrite <- seq_shift, !map_map. apply map_ext. intros i. lia. }
  split; [exact E | split].
  - now rewrite E, length_map, length_seq.
  - intros H. rewrite E. now replace (Z.to_nat n_files) with 0%nat by lia.
Qed.

(** ** What [get_data_row] raises *)

Lemma getitem_inl (label : string) (df : DataFrame) (e : exn) :
  getitem label df = inl e -> e = KeyError label /\ has_column label df = false.
Proof.
  unfold getitem, has_column.
  destruct (find _ df) as [[l xs]|] eqn:E; [discriminate|].
  intros [= <-]. split; [reflexivity|].
  apply not_true_is_false. intros H.
  apply existsb_exists in H as ([l xs] & Hin & Hl).
  now rewrite (find_none _ _ E _ Hin) in Hl.
Qed.

Lemma has_column_getitem (label : string) (df : DataFrame) :
  has_column label df = false -> getitem label df = inl (KeyError label).
Proof.
  intros H. destruct (getitem label df) as [e|xs] eqn:E.
  - apply getitem_inl in E as [-> _]. reflexivity.
  - apply getitem_has_column in E. congruence.
Qed.

(** The exceptions of the model of [get_data_row], case by case. *)
Lemma get_data_row_inl nvim dir_ n_files n_parallel n_warmup duration e :
  let proc := nvim dir_ n_parallel n_warmup duration in
  fst (get_data_row nvim dir_ n_files n_parallel n_warmup duration) = inl e ->
  (returncode proc <> 0 /\
   e = CalledProcessError (returncode proc) (proc_stderr proc) /\
   get_known_error_code (proc_stderr proc) = None) \/
  (returncode proc = 0 /\
   e = KeyError "n_files" /\ has_column "n_files" (stdout proc) = false) \/
  (returncode proc = 0 /\
   e = KeyError "n_parallel" /\
   has_column "n_parallel" (stdout proc) = false) \/
  (returncode proc = 0 /\ e = AssertionError (stdout proc) /\
   exists files_col, getitem "n_files" (stdout proc) = inr files_col /\
     (~ uniform files_col n_files \/
      exists parallel_col,
        getitem "n_parallel" (stdout proc) = inr parallel_col /\
        ~ uniform parallel_col n_parallel)) \/
  (returncode proc = 0 /\ e = TypeError (VStr "ok") /\
   has_column "status" (stdout proc) = true).
Proof.
  intros proc H. destruct (Z.eq_dec (returncode proc) 0) as [E|E].
  - right. rewrite get_data_row_success in H by exact E. fold proc in H.
    destruct (check_echo (stdout_int64 proc) (stdout proc) n_files n_parallel)
      as [e'|csv'] eqn:Hc.
    2:{ rewrite summary_row_spec in H.
        apply check_echo_inr in Hc as (_ & _ & _ & H1 & _). rewrite H1 in H.
        destruct (has_column "status" (stdout proc)); [|discriminate H].
        injection H as <-. now do 3 right. }
    injection H as ->. unfold check_echo in Hc.
    destruct (getitem "n_files" (stdout proc)) as [e1|files_col] eqn:Gf.
    { injection Hc as <-. apply getitem_inl in Gf as [-> Gf]. now left. }
    destruct (all_eq _ files_col n_files) eqn:Af; simpl in Hc.
    2:{ injection Hc as <-. right. right. left. split; [exact E|].
        split; [reflexivity|]. exists files_col. split; [reflexivity|].
        left. intros U. rewrite (all_eq_uniform _ _ _ U) in Af.
        discriminate Af. }
    destruct (getitem "n_parallel" (stdout proc)) as [e1|parallel_col] eqn:Gp.
    { injection Hc as <-. apply getitem_inl in Gp as [-> Gp]. right. left.
      now repeat split. }
    destruct (all_eq _ parallel_col n_parallel) eqn:Ap; simpl in Hc.
    2:{ injection Hc as <-. right. right. left. split; [exact E|].
        split; [reflexivity|]. exists files_col. split; [reflexivity|].
        right. exists parallel_col. split; [reflexivity|].
        intros U. rewrite (all_eq_uniform _ _ _ U) in Ap.
        discriminate Ap. }
    unfold drop in Hc. simpl in Hc.
    rewrite (getitem_has_column _ _ _ Gf), (getitem_has_column _ _ _ Gp) in Hc.
    discriminate Hc.
  - left. rewrite get_data_row_failure in H by exact E. fold proc in H.
    destruct (get_known_error_code (proc_stderr proc)) as [status|] eqn:K.
    + rewrite (known_code_truthy _ _ K) in H. discriminate H.
    + injection H as <-. now repeat split.
Qed.

(** X2.  What an exception of [get_data_row] tells: a [CalledProcessError]
    is the failure of a worker whose error text is not recognised; a
    [KeyError] names an echoed column that the table of a successful worker
    lacks; an [AssertionError] carries the table of a successful worker in
    which an echoed value differs from the requested one. *)
Theorem get_data_row_raises nvim dir_ n_files n_parallel n_warmup duration :
  let proc := nvim dir_ n_parallel n_warmup duration in
  let raised := fst (get_data_row nvim dir_ n_files n_parallel n_warmup
                                  duration) in
  (forall rc stderr,
      raised = inl (CalledProcessError rc stderr) ->
      returncode proc <> 0 /\ rc = returncode proc /\
      stderr = proc_stderr proc /\ get_known_error_code stderr = None) /\
  (forall label,
      raised = inl (KeyError label) ->
      returncode proc = 0 /\ (label = "n_files" \/ label = "n_parallel") /\
      has_column label (stdout proc) = false) /\
  (forall csv,
      raised = inl (AssertionError csv) ->
      returncode proc = 0 /\ csv = stdout proc /\
      exists files_col,
        getitem "n_files" (stdout proc) = inr files_col /\
        (~ uniform files_col n_files \/
         exists parallel_col,
           getitem "n_parallel" (stdout proc) = inr parallel_col /\
           ~ uniform parallel_col n_parallel)).
Proof.
  intros proc raised. repeat apply conj.
  - intros rc stderr H. apply get_data_row_inl in H. fold proc in H.
    destruct H as [(E & [= -> ->] & K) | [(_ & H & _) | [(_ & H & _) |
                   [(_ & H & _) | (_ & H & _)]]]]; try discriminate H.
    now repeat split.
  - intros label H. apply get_data_row_inl in H. fold proc in H.
    destruct H as [(_ & H & _) | [(E & [= ->] & C) | [(E & [= ->] & C) |
                   [(_ & H & _) | (_ & H & _)]]]]; try discriminate H.
    + split; [exact E|]. split; [now left | exact C].
    + split; [exact E|]. split; [now right | exact C].
  - intros csv H. apply get_data_row_inl in H. fold proc in H.
    destruct H as [(_ & H & _) | [(_ & H & _) | [(_ & H & _) |
                   [(E & [= ->] & C) | (_ & H & _)]]]]; try discriminate H.
    split; [exact E|]. split; [reflexivity | exact C].
Qed.

(** X3.  A successful worker whose table has no [n_files] column makes
    [get_data_row] raise [KeyError("n_files")], whatever else the table
    holds; with that column right and no [n_parallel] column it raises
    [KeyError("n_parallel")]. *)
Theorem get_data_row_missing_echo nvim dir_ n_files n_parallel n_warmup
        duration :
  let proc := nvim dir_ n_parallel n_warmup duration in
  returncode proc = 0 ->
  (has_column "n_files" (stdout proc) = false ->
   fst (get_data_row nvim dir_ n_files n_parallel n_warmup duration)
     = inl (KeyError "n_files")) /\
  (forall files_col,
      getitem "n_files" (stdout proc) = inr files_col ->
      uniform files_col n_files ->
      has_column "n_parallel" (stdout proc) = false ->
      fst (get_data_row nvim dir_ n_files n_parallel n_warmup duration)
        = inl (KeyError "n_parallel")).
Proof.
  intros proc E. rewrite get_data_row_success by exact E. fold proc.
  unfold check_echo. split.
  - intros H. now rewrite (has_column_getitem _ _ H).
  - intros files_col Gf Uf H.
    now rewrite Gf, (all_eq_uniform _ _ _ Uf), (has_column_getitem _ _ H).
Qed.

(** ** The tail and the status of a row *)

Lemma store_labels (label : string) (v : value) (s : Series) k x :
  In (k, x) (store label v s) ->
  (exists x', In (k, x') s) \/ k = (label, "").
Proof.
  unfold store.
  match goal with |- context [if ?b then _ else _] => destruct b end.
  - intros H. apply in_map_iff in H as ([[a b] old] & E & Hin).
    left. destruct (String.eqb a label); injection E as <- _; now exists old.
  - intros H. apply in_app_or in H as [H | [[= <- _] | []]].
    + left. now exists x.
    + now right.
Qed.

Lemma reduce_row_tail (csv : DataFrame) (status : ErrorCode)
      (n_files n_parallel : Z) :
  has_column "n_files" csv = false ->
  has_column "n_parallel" csv = false ->
  exists front,
    reduce_row csv status n_files n_parallel =
      (front ++ point_entries n_files n_parallel)%list /\
    forall k x, In (k, x) front ->
                k = ("status", "") \/
                In (fst k) (map fst csv) /\ snd k <> "".
Proof.
  intros H2 H3. apply has_column_false in H2, H3. unfold reduce_row.
  set (s1 := store "status" (VStr status) (collect_stats csv row_stats)).
  assert (L1 : forall k x, In (k, x) s1 ->
                 k = ("status", "") \/
                 In (fst k) (map fst csv) /\ snd k <> "").
  { intros k x Hin. apply store_labels in Hin as [[x' Hin] | ->].
    - right. apply collect_stats_entry in Hin as (Hl & (s & _ & E) & _).
      split; [exact Hl|]. rewrite E. apply stat_label_nonempty.
    - now left. }
  rewrite (store_new "n_files").
  2:{ intros k x Hin E. apply L1 in Hin as [-> | [Hin _]].
      - discriminate E.
      - now rewrite E in Hin. }
  rewrite (store_new "n_parallel").
  2:{ intros k x Hin E. apply in_app_or in Hin as [Hin | [[= <- _] | []]].
      - apply L1 in Hin as [-> | [Hin _]].
        + discriminate E.
        + now rewrite E in Hin.
      - discriminate E. }
  exists s1. split; [now rewrite <- app_assoc | exact L1].
Qed.

(** X4.  Whatever columns the worker reports, a row ends with the requested
    [n_files] and [n_parallel], in this order, and they are what the labels
    [n_files] and [n_parallel] address. *)
Theorem row_ends_with_point nvim dir_ n_files n_parallel n_warmup duration
        row :
  fst (get_data_row nvim dir_ n_files n_parallel n_warmup duration) = inr row ->
  (exists front, row = (front ++ point_entries n_files n_parallel)%list) /\
  lookup ("n_files", "") row = Some (VInt n_files) /\
  lookup ("n_parallel", "") row = Some (VInt n_parallel).
Proof.
  intros H.
  assert (T : exists csv status,
             row = reduce_row csv status n_files n_parallel /\
             has_column "n_files" csv = false /\
             has_column "n_parallel" csv = false).
  { apply get_data_row_inr in H.
    destruct H as [(_ & csv' & Hc & _ & ->) | (_ & status & _ & ->)].
    - apply check_echo_inr in Hc as (_ & H2 & H3 & _).
      now exists csv', "ok".
    - now exists make_empty_data, status. }
  destruct T as (csv & status & -> & H2 & H3).
  destruct (reduce_row_tail csv status n_files n_parallel H2 H3)
    as (front & -> & L).
  split; [now exists front|].
  assert (skip : forall label x,
             label <> "status" -> ~ In ((label, ""), x) front).
  { intros label x Hl Hin. apply L in Hin as [[= E] | [_ E]]; [|now apply E].
    now apply Hl. }
  split; rewrite lookup_app_r; try reflexivity;
    intros x; apply skip; discriminate.
Qed.

(** X5.  The status of a row is "ok", "emfile" or "timeout": "ok" exactly after
    a worker that exited with zero (whose table has no column called
    [status]), a sentinel after one that did not. *)
Theorem row_status_domain nvim dir_ n_files n_parallel n_warmup duration row :
  let proc := nvim dir_ n_parallel n_warmup duration in
  has_column "status" (stdout proc) = false ->
  fst (get_data_row nvim dir_ n_files n_parallel n_warmup duration) = inr row ->
  (returncode proc = 0 /\ lookup ("status", "") row = Some (VStr "ok")) \/
  (returncode proc <> 0 /\
   (lookup ("status", "") row = Some (VStr "emfile") \/
    lookup ("status", "") row = Some (VStr "timeout"))).
Proof.
  intros proc Hs H. apply get_data_row_inr in H. fold proc in H.
  destruct H as [(E & csv' & Hc & H1 & ->) | (E & status & K & ->)].
  - left. split; [exact E|].
    apply check_echo_inr in Hc as (_ & H2 & H3 & _ & _).
    rewrite reduce_row_shape by assumption. apply lookup_metadata.
  - right. split; [exact E|].
    rewrite get_known_error_code_head in K. simpl in K.
    destruct (str_in _ _); [injection K as <-; now left|].
    destruct (str_in _ _); [injection K as <-; now right | discriminate].
Qed.

(** ** The three ways a sweep ends *)

Lemma get_data_row_printed nvim dir_ n_files n_parallel n_warmup duration :
  let proc := nvim dir_ n_parallel n_warmup duration in
  snd (get_data_row nvim dir_ n_files n_parallel n_warmup duration) =
    if (returncode proc =? 0) && truthy (proc_stderr proc)
    then [Printed (proc_stderr proc)] else [].
Proof.
  intros proc. unfold get_data_row, benchmark_dir. fold proc.
  destruct (returncode proc =? 0); simpl.
  - now destruct (check_echo (stdout_int64 proc) (stdout proc) n_files n_parallel).
  - destruct (get_known_error_code (proc_stderr proc)) as [status|];
      [now destruct (truthy status) | reflexivity].
Qed.

Lemma sweep_points_run nvim n_warmup duration points rows err :
  exists visited rest new_rows,
    points = (visited ++ rest)%list /\
    Forall2 (fun pt row => point_result nvim n_warmup duration pt = inr row)
            visited new_rows /\
    ((rest = [] /\
      sweep_points nvim n_warmup duration points rows err =
        (None, (rows ++ new_rows)%list,
         (err ++ flat_map (point_printed nvim n_warmup duration) visited)%list))
     \/
     (exists point after e,
         rest = point :: after /\
         point_result nvim n_warmup duration point = inl e /\
         sweep_points nvim n_warmup duration points rows err =
           (Some e, (rows ++ new_rows)%list,
            (err ++ flat_map (point_printed nvim n_warmup duration)
                             (visited ++ [point]))%list))).
Proof.
  revert rows err.
  induction points as [|[n_files n_parallel] points IH]; intros rows err.
  - exists [], [], []. split; [reflexivity|]. split; [constructor|].
    left. split; [reflexivity|]. simpl. now rewrite !app_nil_r.
  - simpl.
    destruct (get_data_row nvim (gendir n_files) n_files n_parallel n_warmup
                           duration) as [[e|row] printed] eqn:G.
    + exists [], ((n_files, n_parallel) :: points), [].
      split; [reflexivity|]. split; [constructor|]. right.
      exists (n_files, n_parallel), points, e. split; [reflexivity|].
      unfold point_result, point_printed. simpl. rewrite G. simpl.
      split; [reflexivity|]. now rewrite !app_nil_r.
    + destruct (IH (rows ++ [row])%list (err ++ printed)%list)
        as (visited & rest & new_rows & -> & Hrows & Hend).
      exists ((n_files, n_parallel) :: visited), rest, (row :: new_rows).
      split; [reflexivity|]. split.
      { constructor; [|exact Hrows]. unfold point_result. simpl. now rewrite G. }
      assert (P : point_printed nvim n_warmup duration (n_files, n_parallel)
                  = printed).
      { unfold point_printed. simpl. now rewrite G. }
      destruct Hend as [[-> ->] | (point & after & e & -> & Hp & ->)].
      * left. split; [reflexivity|]. simpl. rewrite P.
        now rewrite <- !app_assoc.
      * right. exists point, after, e. split; [reflexivity|].
        split; [exact Hp|]. simpl. rewrite P. now rewrite <- !app_assoc.
Qed.

(** The three ways a sweep ends, with the rows of the points it visited. *)
Lemma main_inner_run nvim files_range parallel_range n_warmup duration
        output :
  exists visited rest rows,
    grid (range_elems files_range) (range_elems parallel_range)
      = (visited ++ rest)%list /\
    Forall2 (fun pt row => point_result nvim n_warmup duration pt = inr row)
            visited rows /\
    ((rest = [] /\ rows <> [] /\
      main_inner nvim files_range parallel_range n_warmup duration output =
        (inr tt, write output (report rows "nan"),
         flat_map (point_printed nvim n_warmup duration) visited))
     \/
     (rest = [] /\ visited = [] /\
      main_inner nvim files_range parallel_range n_warmup duration output =
        (inl (ValueError "no data"), output, []))
     \/
     (exists point after e,
         rest = point :: after /\
         point_result nvim n_warmup duration point = inl e /\
         main_inner nvim files_range parallel_range n_warmup duration output =
           (inl e,
            match rows with
            | [] => output
            | _ => write output (report rows default_na_rep)
            end,
            flat_map (point_printed nvim n_warmup duration)
                     (visited ++ [point])))).
Proof.
  unfold main_inner, report. rewrite outer_loop_points.
  destruct (sweep_points_run nvim n_warmup duration
              (grid (range_elems files_range) (range_elems parallel_range))
              [] [])
    as (visited & rest & rows & Hgrid & Hrows & Hend).
  exists visited, rest, rows. split; [exact Hgrid|]. split; [exact Hrows|].
  destruct Hend as [[-> ->] | (point & after & e & -> & Hp & ->)]; simpl.
  - destruct rows as [|row rows].
    + right. left. inversion Hrows. now repeat split.
    + left. split; [reflexivity|]. split; [discriminate | reflexivity].
  - right. right. exists point, after, e. split; [reflexivity|].
    split; [exact Hp|]. now destruct rows.
Qed.

(** X6.  [main_inner] ends in one of three ways.  The rows it has collected are
    those of an initial part of the grid, in order, one per point.  Either the whole grid
    was visited and gave rows: it returns after writing them with [nan] for
    missing values; or the grid is empty: it raises [ValueError] and writes
    nothing; or a point raised: it raises the same exception after writing
    the rows before that point, if there are any.  The error channel holds
    what the calls at the visited points printed, in order. *)
Theorem main_inner_outcome nvim files_range parallel_range n_warmup duration
        output :
  exists visited rest rows,
    grid (range_elems files_range) (range_elems parallel_range)
      = (visited ++ rest)%list /\
    Forall2 (fun pt row => point_result nvim n_warmup duration pt = inr row)
            visited rows /\
    List.length rows = List.length visited /\
    ((rest = [] /\ rows <> [] /\
      main_inner nvim files_range parallel_range n_warmup duration output =
        (inr tt, write output (report rows "nan"),
         flat_map (point_printed nvim n_warmup duration) visited))
     \/
     (rest = [] /\ visited = [] /\
      main_inner nvim files_range parallel_range n_warmup duration output =
        (inl (ValueError "no data"), output, []))
     \/
     (exists point after e,
         rest = point :: after /\
         point_result nvim n_warmup duration point = inl e /\
         main_inner nvim files_range parallel_range n_warmup duration output =
           (inl e,
            match rows with
            | [] => output
            | _ => write output (report rows default_na_rep)
            end,
            flat_map (point_printed nvim n_warmup duration)
                     (visited ++ [point])))).
Proof.
  destruct (main_inner_run nvim files_range parallel_range n_warmup duration
                           output)
    as (visited & rest & rows & Hgrid & Hrows & Hend).
  exists visited, rest, rows. split; [exact Hgrid|]. split; [exact Hrows|].
  split; [|exact Hend].
  symmetry. exact (Forall2_length Hrows).
Qed.

Lemma grid_length (files parallel : list Z) :
  List.length (grid files parallel)
  = (List.length files * List.length parallel)%nat.
Proof.
  unfold grid. induction files as [|n_files files IH]; simpl; [reflexivity|].
  now rewrite length_app, length_map, IH.
Qed.

(** A sweep that returns has a row for every point of the grid. *)
Lemma main_inner_returns_rows nvim files_range parallel_range n_warmup duration
      output output' err :
  main_inner nvim files_range parallel_range n_warmup duration output
    = (inr tt, output', err) ->
  exists rows,
    Forall2 (fun pt row => point_result nvim n_warmup duration pt = inr row)
            (grid (range_elems files_range) (range_elems parallel_range))
            rows /\
    output' = write output (report rows "nan") /\
    rows <> [].
Proof.
  intros H.
  destruct (main_inner_run nvim files_range parallel_range n_warmup
              duration output)
    as (visited & rest & rows & Hgrid & Hrows & Hend).
  destruct Hend as [(-> & Hne & E) | [(_ & _ & E) | (p & a & e & _ & _ & E)]];
    rewrite E in H; try discriminate H.
  injection H as <- _. rewrite app_nil_r in Hgrid. subst visited.
  now exists rows.
Qed.

(** X7.  When [main_inner] returns, every point of the grid has its row in the
    report: the sink has grown by one text, written with [nan] for missing
    values, whose data lines are as many as the product of the lengths of
    the two ranges, which is not zero. *)
Theorem main_inner_returns nvim files_range parallel_range n_warmup duration
        output output' err :
  main_inner nvim files_range parallel_range n_warmup duration output
    = (inr tt, output', err) ->
  exists rows,
    Forall2 (fun pt row => point_result nvim n_warmup duration pt = inr row)
            (grid (range_elems files_range) (range_elems parallel_range))
            rows /\
    output' = write output (report rows "nan") /\
    List.length (data_lines (frame_of_rows rows) "nan")
    = (List.length (range_elems files_range)
       * List.length (range_elems parallel_range))%nat /\
    (0 < List.length rows)%nat.
Proof.
  intros H.
  destruct (main_inner_returns_rows _ _ _ _ _ _ _ _ H)
    as (rows & Hrows & -> & Hne).
  exists rows. split; [exact Hrows|]. split; [reflexivity|]. split.
  - rewrite data_lines_length, records_length, <- (Forall2_length Hrows).
    apply grid_length.
  - destruct rows; [contradiction | simpl; lia].
Qed.


(** X9.  All that a sweep puts on the error channel is the error text of
    workers that exited with status zero and a text that is not empty; it
    prints nothing for a worker that failed. *)
Theorem main_inner_prints nvim files_range parallel_range n_warmup duration
        output :
  Forall (fun event =>
            exists point,
              In point (grid (range_elems files_range)
                             (range_elems parallel_range)) /\
              let proc := point_proc nvim n_warmup duration point in
              returncode proc = 0 /\ proc_stderr proc <> "" /\
              event = Printed (proc_stderr proc))
         (snd (main_inner nvim files_range parallel_range n_warmup duration
                          output)).
Proof.
  assert (P : forall points,
             Forall (fun event =>
                       exists point,
                         In point points /\
                         let proc := point_proc nvim n_warmup duration point in
                         returncode proc = 0 /\ proc_stderr proc <> "" /\
                         event = Printed (proc_stderr proc))
                    (flat_map (point_printed nvim n_warmup duration) points)).
  { intros points. apply Forall_forall. intros event Hin.
    apply in_flat_map in Hin as (point & Hp & Hin). exists point.
    split; [exact Hp|]. unfold point_printed in Hin.
    rewrite get_data_row_printed in Hin.
    fold (point_proc nvim n_warmup duration point) in Hin. cbv zeta.
    destruct (returncode _ =? 0) eqn:E; [|contradiction].
    apply Z.eqb_eq in E. split; [exact E|].
    destruct (proc_stderr _) eqn:S; [contradiction|].
    destruct Hin as [<- | []]. split; [discriminate | reflexivity]. }
  destruct (main_inner_run nvim files_range parallel_range n_warmup
              duration output)
    as (visited & rest & rows & Hgrid & _ & Hend).
  rewrite Hgrid.
  destruct Hend as [(-> & _ & ->) | [(_ & _ & ->) | (p & a & e & -> & _ & ->)]];
    simpl.
  - rewrite app_nil_r. apply P.
  - constructor.
  - eapply Forall_impl; [|apply (P (visited ++ [p])%list)].
    intros event (point & Hin & H). exists point. split; [|exact H].
    apply in_app_or in Hin as [Hin | [<- | []]]; apply in_or_app;
      [now left | right; now left].
Qed.

(** X10.  Failures that the classifier knows do not abort a sweep: when the
    worker fails in a known way at every point of a grid that is not empty,
    [main_inner] returns, prints nothing, and has written a report with one
    row per point. *)
Theorem known_failures_complete nvim files_range parallel_range n_warmup
        duration output :
  let points := grid (range_elems files_range) (range_elems parallel_range) in
  points <> [] ->
  (forall point,
      In point points ->
      let proc := point_proc nvim n_warmup duration point in
      returncode proc <> 0 /\ get_known_error_code (proc_stderr proc) <> None) ->
  exists rows,
    main_inner nvim files_range parallel_range n_warmup duration output =
      (inr tt, write output (report rows "nan"), []) /\
    Forall2 (fun pt row =>
               exists status,
                 get_known_error_code
                   (proc_stderr (point_proc nvim n_warmup duration pt))
                   = Some status /\
                 row = reduce_row make_empty_data status (fst pt) (snd pt))
            points rows.
Proof.
  intros points Hne Hall.
  destruct (main_inner_run nvim files_range parallel_range n_warmup
              duration output)
    as (visited & rest & rows & Hgrid & Hrows & Hend).
  fold points in Hgrid.
  assert (R : forall pt, In pt points ->
                exists status,
                  get_known_error_code
                    (proc_stderr (point_proc nvim n_warmup duration pt))
                    = Some status /\
                  get_data_row nvim (gendir (fst pt)) (fst pt) (snd pt)
                               n_warmup duration
                  = (inr (reduce_row make_empty_data status (fst pt) (snd pt)),
                     [])).
  { intros pt Hin. destruct (Hall pt Hin) as [E K].
    rewrite get_data_row_failure by exact E.
    fold (point_proc nvim n_warmup duration pt).
    destruct (get_known_error_code _) as [status|] eqn:K'; [|contradiction].
    exists status. split; [reflexivity|].
    now rewrite (known_code_truthy _ _ K'). }
  destruct Hend as [(-> & _ & E) | [(-> & -> & _) | (p & a & e & -> & Hp & _)]].
  - rewrite app_nil_r in Hgrid. subst visited. exists rows. split.
    + rewrite E. f_equal.
      clear -R. induction points as [|pt points IH]; simpl; [reflexivity|].
      destruct (R pt (or_introl eq_refl)) as (status & _ & G).
      unfold point_printed at 1. rewrite G. simpl.
      apply IH. intros pt' Hin. apply R. now right.
    + clear -R Hrows. induction Hrows as [|pt row points rows Hrow _ IH];
        constructor.
      * destruct (R pt (or_introl eq_refl)) as (status & K & G).
        exists status. split; [exact K|].
        unfold point_result in Hrow. rewrite G in Hrow. simpl in Hrow.
        congruence.
      * apply IH. intros pt' Hin. apply R. now right.
  - now contradiction Hne.
  - destruct (R p) as (status & _ & G).
    { rewrite Hgrid. apply in_or_app. right. now left. }
    unfold point_result in Hp. rewrite G in Hp. discriminate Hp.
Qed.

(** ** The statistics of a column *)

Lemma isort_length {A} (le : A -> A -> bool) (l : list A) :
  List.length (isort le l) = List.length l.
Proof. apply Permutation_length, isort_perm. Qed.





(** ** Addressing the entries of [collect_stats] *)

Lemma lookup_None (k : key) (s : Series) :
  ~ In k (keys s) -> lookup k s = None.
Proof.
  unfold lookup. destruct (find _ s) as [[k' v]|] eqn:E; [|reflexivity].
  intros H. apply find_some in E as [Hin E]. apply key_eqb_eq in E. subst k'.
  contradiction H. unfold keys. now apply (in_map fst) in Hin.
Qed.

(** X13.  The entry that [(label, name)] addresses in the result of
    [collect_stats] is the statistic called [name] of the column [label];
    there is no entry when the table has no such column or [name] is not
    the name of one of the five statistics. *)
Theorem collect_stats_lookup (data : DataFrame) (label name : string) :
  NoDup (map fst data) ->
  (forall xs s,
      In (label, xs) data -> name = stat_label s ->
      lookup (label, name) (collect_stats data row_stats)
        = Some (VFloat (reduce s xs))) /\
  (has_column label data = false \/ (forall s, name <> stat_label s) ->
   lookup (label, name) (collect_stats data row_stats) = None).
Proof.
  intros Hnd. split.
  - intros xs s Hin ->. now apply lookup_collect_stats.
  - intros H. apply lookup_None. rewrite keys_collect_stats. intros Hin.
    apply (Permutation_in _ (isort_perm _ _)) in Hin.
    apply In_stat_keys in Hin as (Hl & s & _ & E). simpl in Hl, E.
    destruct H as [H | H].
    + apply has_column_false in H. contradiction.
    + now apply (H s).
Qed.

(** ** The order of the entries of [collect_stats] *)

Lemma string_compare_refl (a : string) : String.compare a a = Eq.
Proof.
  pose proof (String.compare_antisym a a) as H.
  destruct (String.compare a a); simpl in H; congruence.
Qed.

Lemma string_compare_trans (a b c : string) :
  String.compare a b = Lt -> String.compare b c = Lt ->
  String.compare a c = Lt.
Proof.
  exact (@RelationClasses.StrictOrder_Transitive
           _ _ OrdersEx.String_as_OT.lt_strorder a b c).
Qed.

Lemma string_leb_trans (a b c : string) :
  String.leb a b = true -> String.leb b c = true -> String.leb a c = true.
Proof.
  unfold String.leb.
  destruct (String.compare a b) eqn:E1; [| |discriminate].
  - apply String.compare_eq_iff in E1. now subst b.
  - destruct (String.compare b c) eqn:E2; [| |discriminate].
    + apply String.compare_eq_iff in E2. subst c. now rewrite E1.
    + now rewrite (string_compare_trans a b c E1 E2).
Qed.

Lemma key_le_total (k1 k2 : key) : key_le k1 k2 \/ key_le k2 k1.
Proof.
  unfold key_le, key_leb. rewrite (String.compare_antisym (fst k1) (fst k2)).
  destruct (String.compare (fst k2) (fst k1)); simpl; auto.
  apply String.leb_total.
Qed.

Lemma key_le_trans (k1 k2 k3 : key) :
  key_le k1 k2 -> key_le k2 k3 -> key_le k1 k3.
Proof.
  unfold key_le, key_leb.
  destruct (String.compare (fst k1) (fst k2)) eqn:E1; [| |discriminate].
  - apply String.compare_eq_iff in E1. rewrite E1.
    destruct (String.compare (fst k2) (fst k3)); [|reflexivity|discriminate].
    apply string_leb_trans.
  - intros _.
    destruct (String.compare (fst k2) (fst k3)) eqn:E2; [| |discriminate].
    + apply String.compare_eq_iff in E2. rewrite <- E2, E1. reflexivity.
    + now rewrite (string_compare_trans _ _ _ E1 E2).
Qed.

Lemma key_le_antisym (k1 k2 : key) : key_le k1 k2 -> key_le k2 k1 -> k1 = k2.
Proof.
  unfold key_le, key_leb. rewrite (String.compare_antisym (fst k2) (fst k1)).
  destruct (String.compare (fst k1) (fst k2)) eqn:E; simpl;
    [|discriminate|discriminate].
  apply String.compare_eq_iff in E. intros H1 H2.
  destruct k1, k2. simpl in *. f_equal; [exact E|].
  now apply String.leb_antisym.
Qed.

Section SortedInsertion.
Context {A : Type} (le : A -> A -> bool).
Let R (x y : A) : Prop := le x y = true.
Hypothesis R_total : forall x y, R x y \/ R y x.
Hypothesis R_trans : forall x y z, R x y -> R y z -> R x z.

Lemma insert_sorted (x : A) (l : list A) :
  StronglySorted R l -> StronglySorted R (insert le x l).
Proof using R_total R_trans.
  induction 1 as [|y l Hs IH Hy]; simpl.
  - repeat constructor.
  - destruct (le x y) eqn:E.
    + constructor; [now constructor|].
      constructor; [exact E|].
      eapply Forall_impl; [|exact Hy]. intros z. now apply R_trans.
    + constructor; [exact IH|].
      assert (Ryx : R y x).
      { destruct (R_total x y) as [H|H]; [unfold R in H; congruence | exact H]. }
      apply Forall_forall. intros z Hz.
      apply (Permutation_in _ (insert_perm le x l)) in Hz.
      destruct Hz as [<- | Hz]; [exact Ryx|].
      rewrite Forall_forall in Hy. now apply Hy.
Qed.

Lemma isort_sorted (l : list A) : StronglySorted R (isort le l).
Proof using R_total R_trans.
  induction l as [|x l IH]; simpl; [constructor | now apply insert_sorted].
Qed.

Lemma sorted_unique (l1 l2 : list A) :
  StronglySorted R l1 -> StronglySorted R l2 -> Permutation l1 l2 ->
  (forall x y, In x l1 -> In y l1 -> R x y -> R y x -> x = y) ->
  l1 = l2.
Proof using Type.
  intros H1. revert l2. induction H1 as [|a l1 Hs IH Ha]; intros l2 H2 P Anti.
  - apply Permutation_nil in P. now subst.
  - destruct l2 as [|b l2].
    { apply Permutation_sym, Permutation_nil in P. discriminate. }
    assert (a = b).
    { apply StronglySorted_inv in H2 as [_ Hb].
      rewrite Forall_forall in Ha, Hb.
      assert (Ia : In a (b :: l2)) by (apply (Permutation_in _ P); now left).
      assert (Ib : In b (a :: l1))
        by (apply (Permutation_in _ (Permutation_sym P)); now left).
      destruct Ia as [E | Ia]; [now symmetry|].
      destruct Ib as [E | Ib]; [exact E|].
      apply Anti; [now left | now right | now apply Ha | now apply Hb]. }
    subst b. f_equal. apply StronglySorted_inv in H2 as [H2 _].
    apply IH; [exact H2 | now apply Permutation_cons_inv in P|].
    intros x y Hx Hy. apply Anti; now right.
Qed.
End SortedInsertion.

(** X14.  The labels of the statistics of a table are those of the table
    combined with the names of the five statistics, each once, in ascending
    order: by column label first, by the name of the statistic second. *)
Theorem collect_stats_sorted (data : DataFrame) :
  StronglySorted key_le (keys (collect_stats data row_stats)) /\
  Permutation (keys (collect_stats data row_stats))
              (stat_keys (map fst data) row_stats) /\
  List.length (collect_stats data row_stats) = (5 * List.length data)%nat.
Proof.
  rewrite keys_collect_stats. split; [|split].
  - apply (isort_sorted key_leb).
    + apply key_le_total.
    + apply key_le_trans.
  - apply isort_perm.
  - rewrite <- (length_map fst (collect_stats data row_stats)).
    fold (keys (collect_stats data row_stats)).
    rewrite keys_collect_stats, isort_length. unfold stat_keys, row_stats.
    simpl. rewrite !length_app, !length_map. simpl. lia.
Qed.

Lemma Permutation_flat_map_ext {A B} (f g : A -> list B) (l : list A) :
  (forall a, Permutation (f a) (g a)) ->
  Permutation (flat_map f l) (flat_map g l).
Proof.
  intros H. induction l as [|a l IH]; simpl; [constructor|].
  now apply Permutation_app.
Qed.

Lemma entry_unique (s : Series) (k : key) (v1 v2 : value) :
  NoDup (keys s) -> In (k, v1) s -> In (k, v2) s -> v1 = v2.
Proof.
  intros Hnd H1 H2.
  pose proof (lookup_In k v1 s Hnd H1) as L1.
  pose proof (lookup_In k v2 s Hnd H2) as L2. congruence.
Qed.

(** X15.  The row of statistics does not depend on the order in which the worker
    prints its columns. *)
Theorem collect_stats_column_order (data data' : DataFrame) :
  NoDup (map fst data) ->
  Permutation data data' ->
  collect_stats data' row_stats = collect_stats data row_stats.
Proof.
  intros Hnd P.
  assert (Hnd' : NoDup (keys (collect_stats data' row_stats))).
  { apply NoDup_keys_collect_stats; [|apply NoDup_row_stats].
    apply (Permutation_NoDup (Permutation_map fst P) Hnd). }
  apply (sorted_unique entry_leb).
  - apply (isort_sorted entry_leb).
    + intros x y. apply key_le_total.
    + intros x y z. apply key_le_trans.
  - apply (isort_sorted entry_leb).
    + intros x y. apply key_le_total.
    + intros x y z. apply key_le_trans.
  - unfold collect_stats, sort_index.
    eapply perm_trans; [apply isort_perm|].
    eapply perm_trans; [|apply Permutation_sym, isort_perm].
    unfold swaplevel. apply Permutation_map. unfold concat_keys.
    rewrite !flat_map_concat_map, !map_map, <- !flat_map_concat_map.
    apply Permutation_flat_map_ext. intros s.
    apply Permutation_map. unfold apply_stat.
    apply Permutation_map, Permutation_sym, P.
  - intros [k1 v1] [k2 v2] H1 H2 L1 L2.
    assert (k1 = k2) by (apply key_le_antisym; assumption). subst k2.
    f_equal. exact (entry_unique _ k1 v1 v2 Hnd' H1 H2).
Qed.

(** ** The frame and the text of a report *)

Lemma add_labels_present (new cols : list key) :
  (forall k, In k new -> In k cols) -> fold_left add_label new cols = cols.
Proof.
  induction new as [|k new IH]; simpl; intros H; [reflexivity|].
  unfold add_label at 2.
  replace (existsb (key_eqb k) cols) with true.
  - apply IH. intros k' Hk'. apply H. now right.
  - symmetry. apply existsb_exists. exists k.
    split; [apply H; now left | now apply key_eqb_eq].
Qed.

Lemma add_labels_fresh (new : list key) :
  NoDup new -> fold_left add_label new [] = new.
Proof.
  intros H.
  assert (G : forall cols, NoDup (cols ++ new) ->
                fold_left add_label new cols = (cols ++ new)%list).
  { clear H. induction new as [|k new IH]; intros cols H; simpl.
    - now rewrite app_nil_r.
    - unfold add_label at 2.
      replace (existsb (key_eqb k) cols) with false.
      + rewrite IH; rewrite <- app_assoc; [reflexivity | exact H].
      + symmetry. apply not_true_is_false. intros E.
        apply existsb_exists in E as (k' & Hin & E).
        apply key_eqb_eq in E. subst k'.
        apply NoDup_remove_2 in H. apply H. apply in_or_app. now left. }
  now apply (G []).
Qed.

Lemma combine_map_r {A B C} (f : B -> C) (l1 : list A) (l2 : list B) :
  combine l1 (map f l2) = map (fun '(a, b) => (a, f b)) (combine l1 l2).
Proof.
  revert l2. induction l1 as [|a l1 IH]; intros [|b l2]; simpl;
    try reflexivity.
  now rewrite IH.
Qed.

Lemma align_own_keys (row : Series) :
  NoDup (keys row) -> align (keys row) row = map snd row.
Proof.
  intros H. unfold align, keys. rewrite map_map. apply map_ext_in.
  intros [k v] Hin. simpl. now rewrite (lookup_In k v row H Hin).
Qed.

(** The frame of rows that carry the same labels. *)
Lemma frame_uniform (rows : list Series) (labels : list key) :
  rows <> [] ->
  NoDup labels ->
  (forall row, In row rows -> keys row = labels) ->
  frame_of_rows rows = {| columns := labels; records := map (map snd) rows |}.
Proof.
  intros Hne Hnd Hkeys.
  assert (C : combined_columns rows = labels).
  { unfold combined_columns. destruct rows as [|row rows]; [contradiction|].
    simpl. rewrite (Hkeys row (or_introl eq_refl)), (add_labels_fresh _ Hnd).
    assert (G : forall rest, (forall r, In r rest -> keys r = labels) ->
                  fold_left (fun cols r => fold_left add_label (keys r) cols)
                            rest labels = labels).
    { induction rest as [|r rest IH]; simpl; intros H; [reflexivity|].
      rewrite (H r (or_introl eq_refl)), add_labels_present by auto.
      apply IH. intros r' Hr'. apply H. now right. }
    apply G. intros r Hr. apply Hkeys. now right. }
  unfold frame_of_rows. rewrite C. f_equal. apply map_ext_in.
  intros row Hin. rewrite <- (Hkeys row Hin). apply align_own_keys.
  rewrite (Hkeys row Hin). exact Hnd.
Qed.

(** The lines of a report of such rows. *)
Lemma report_lines_uniform (rows : list Series) (labels : list key)
      (na_rep : string) :
  rows <> [] ->
  NoDup labels ->
  (forall row, In row rows -> keys row = labels) ->
  csv_lines (report rows na_rep) =
    ([ "" :: map fst labels; "" :: map snd labels ]
       ++ value_lines rows na_rep)%list.
Proof.
  intros Hne Hnd Hkeys.
  unfold report, to_csv, header, data_lines, value_lines.
  rewrite (frame_uniform rows labels Hne Hnd Hkeys). simpl.
  do 2 f_equal. rewrite length_map, combine_map_r, map_map.
  apply map_ext. now intros [i row].
Qed.

(** X16.  Rows that carry the same labels, each once, give a frame with these
    labels as columns and the values of each row, in order, as its record:
    and so the report has the two header lines of the labels and, per row,
    the row number followed by the values of the row. *)
Theorem report_of_uniform_rows (rows : list Series) (labels : list key)
        (na_rep : string) :
  rows <> [] ->
  NoDup labels ->
  (forall row, In row rows -> keys row = labels) ->
  frame_of_rows rows = {| columns := labels; records := map (map snd) rows |} /\
  csv_lines (report rows na_rep) =
    ([ "" :: map fst labels; "" :: map snd labels ]
       ++ value_lines rows na_rep)%list.
Proof.
  intros Hne Hnd Hkeys. split.
  - now apply frame_uniform.
  - now apply report_lines_uniform.
Qed.

Lemma Forall2_In_r {A B} (P : A -> B -> Prop) (l1 : list A) (l2 : list B)
      (b : B) :
  Forall2 P l1 l2 -> In b l2 -> exists a, In a l1 /\ P a b.
Proof.
  induction 1 as [|a' b' l1 l2 Hab _ IH]; simpl; [contradiction|].
  intros [<- | Hin].
  - exists a'. split; [now left | exact Hab].
  - destruct (IH Hin) as (a & Ha & Pa). exists a. split; [now right | exact Pa].
Qed.

Lemma NoDup_summary_keys : NoDup summary_keys.
Proof.
  unfold summary_keys. repeat constructor; simpl;
    intros H; repeat (destruct H as [H | H]; [discriminate H|]); exact H.
Qed.

(** The labels of a row whose table has the two metrics. *)
Lemma row_keys_two_metrics nvim dir_ n_files n_parallel n_warmup duration row :
  let proc := nvim dir_ n_parallel n_warmup duration in
  (returncode proc = 0 ->
   Permutation (metric_labels (stdout proc)) ["setup_ms"; "time_ms"]) ->
  fst (get_data_row nvim dir_ n_files n_parallel n_warmup duration) = inr row ->
  keys row = summary_keys.
Proof.
  intros proc Hperm H. apply get_data_row_inr in H. fold proc in H.
  destruct H as [(E & csv' & Hc & H1 & ->) | (_ & status & _ & ->)];
    [|reflexivity].
  specialize (Hperm E).
  apply check_echo_inr in Hc as (Hl & H2 & H3 & _ & _).
  rewrite <- Hl in Hperm.
  rewrite (reduce_row_shape csv') by assumption.
  unfold keys. rewrite map_app. fold (keys (collect_stats csv' row_stats)).
  rewrite keys_collect_stats.
  apply Permutation_sym, Permutation_length_2_inv in Hperm.
  destruct Hperm as [-> | ->]; reflexivity.
Qed.

(** X17.  The layout of the report of a sweep that completes, when the workers
    report the two metrics [setup_ms] and [time_ms]: after the row number,
    five statistics of [setup_ms], five of [time_ms], then [status],
    [n_files] and [n_parallel] in the columns 11, 12 and 13, with an empty
    second header field; every data line holds the values of its row. *)
Theorem report_layout nvim files_range parallel_range n_warmup duration
        output output' err :
  (forall point,
      In point (grid (range_elems files_range) (range_elems parallel_range)) ->
      let proc := point_proc nvim n_warmup duration point in
      returncode proc = 0 ->
      Permutation (metric_labels (stdout proc)) ["setup_ms"; "time_ms"]) ->
  main_inner nvim files_range parallel_range n_warmup duration output
    = (inr tt, output', err) ->
  exists rows,
    Forall2 (fun pt row => point_result nvim n_warmup duration pt = inr row)
            (grid (range_elems files_range) (range_elems parallel_range))
            rows /\
    output' = write output (report rows "nan") /\
    csv_lines (report rows "nan") =
      ([ [ ""; "setup_ms"; "setup_ms"; "setup_ms"; "setup_ms"; "setup_ms";
           "time_ms"; "time_ms"; "time_ms"; "time_ms"; "time_ms";
           "status"; "n_files"; "n_parallel" ];
         [ ""; "max"; "mean"; "median"; "min"; "std";
           "max"; "mean"; "median"; "min"; "std"; ""; ""; "" ] ]
         ++ value_lines rows "nan")%list.
Proof.
  intros Htables H.
  destruct (main_inner_returns_rows _ _ _ _ _ _ _ _ H)
    as (rows & Hrows & -> & Hne).
  exists rows. split; [exact Hrows|]. split; [reflexivity|].
  apply (report_lines_uniform rows summary_keys "nan").
  - exact Hne.
  - apply NoDup_summary_keys.
  - intros row Hin.
    destruct (Forall2_In_r _ _ _ _ Hrows Hin) as (pt & Hpt & Hrow).
    apply (row_keys_two_metrics nvim (gendir (fst pt)) (fst pt) (snd pt)
                                n_warmup duration row);
      [|exact Hrow].
    intros E. now apply (Htables pt Hpt).
Qed.

(** ** [main] and the script *)

Lemma main_with_ranges args nvim files_range parallel_range :
  args_nvim args = Some nvim ->
  args_ranges args = inr (files_range, parallel_range) ->
  main args =
    match main_inner nvim files_range parallel_range (args_n_warmup args)
                     (args_duration args) (args_output args) with
    | (inl (CalledProcessError rc stderr as exc), output, err) =>
        (inr 1, output,
         (err ++ [ Traceback exc;
                   Printed separator;
                   Printed ("catured error output:"
                              ++ String newline stderr) ])%list)
    | (inl e, output, err) => (inl e, output, err)
    | (inr tt, output, err) => (inr 0, output, err)
    end.
Proof.
  intros Hn Hr. unfold main, args_ranges in *. rewrite Hn.
  destruct (make_range (args_files_range args)) as [e|fr]; [discriminate|].
  destruct (args_parallel_range args) as [triple|].
  - destruct (make_range triple) as [e|pr]; [discriminate|].
    now injection Hr as -> ->.
  - now injection Hr as -> ->.
Qed.

Lemma main_bad_ranges args nvim e :
  args_nvim args = Some nvim ->
  args_ranges args = inl e ->
  main args = (inl e, args_output args, []).
Proof.
  intros Hn Hr. unfold main, args_ranges in *. rewrite Hn.
  destruct (make_range (args_files_range args)) as [e'|fr]; [congruence|].
  destruct (args_parallel_range args) as [triple|]; [|discriminate].
  destruct (make_range triple); [congruence | discriminate].
Qed.

(** X18.  Without an executable, or with a stride of zero in one of the two
    ranges, [main] raises before any worker is run: the sink is left as it
    was and nothing is printed. *)
Theorem main_configuration_errors args :
  (args_nvim args = None ->
   main args = (inl (OSError "no nvim found"), args_output args, [])) /\
  (forall e, args_nvim args <> None -> args_ranges args = inl e ->
             e = ValueError "range() arg 3 must not be zero" /\
             main args = (inl e, args_output args, [])) /\
  (forall a b, args_nvim args <> None -> args_files_range args = (a, b, 0) ->
               exists e, args_ranges args = inl e) /\
  (forall a b, args_nvim args <> None ->
               args_parallel_range args = Some (a, b, 0) ->
               exists e, args_ranges args = inl e).
Proof.
  unfold main, args_ranges. repeat split.
  - now intros ->.
  - destruct (args_files_range args) as [[a b] c]. unfold make_range in *.
    destruct (c =? 0); [congruence|].
    destruct (args_parallel_range args) as [[[a' b'] c']|]; [|discriminate].
    destruct (c' =? 0); congruence.
  - destruct (args_nvim args); [|contradiction].
    destruct (make_range (args_files_range args)) as [e'|fr];
      [congruence|].
    destruct (args_parallel_range args) as [triple|]; [|discriminate].
    destruct (make_range triple); [congruence | discriminate].
  - intros a b _ ->. simpl. now eexists.
  - intros a b _ ->. destruct (make_range (args_files_range args));
      simpl; now eexists.
Qed.

(** X19.  When no inner range is given, [main] sweeps the outer range in both
    dimensions: it behaves as with the outer range given twice. *)
Theorem main_parallel_default args :
  args_parallel_range args = None ->
  main args = main (with_parallel_range args (Some (args_files_range args))).
Proof.
  intros H. unfold main, with_parallel_range. simpl. rewrite H.
  destruct (args_nvim args); [|reflexivity].
  now destruct (make_range (args_files_range args)).
Qed.

(** X20.  [main] returns 0 or 1 and nothing else: 0 only when every point of
    a grid that is not empty has given its row, and 1 only when the worker
    has failed at a point of the grid, the traceback of this failure, the
    separator and the captured text being then the last three events on the
    error channel. *)
Theorem main_return_values args n output err :
  main args = (inr n, output, err) ->
  exists nvim files_range parallel_range,
    args_nvim args = Some nvim /\
    args_ranges args = inr (files_range, parallel_range) /\
    let points :=
      grid (range_elems files_range) (range_elems parallel_range) in
    let result :=
      point_result nvim (args_n_warmup args) (args_duration args) in
    ((n = 0 /\ points <> [] /\
      exists rows, Forall2 (fun pt row => result pt = inr row) points rows)
     \/
     (n = 1 /\
      exists point rc stderr err0,
        In point points /\
        result point = inl (CalledProcessError rc stderr) /\
        err = (err0 ++ [ Traceback (CalledProcessError rc stderr);
                         Printed separator;
                         Printed ("catured error output:"
                                    ++ String newline stderr) ])%list)).
Proof.
  intros H.
  destruct (args_nvim args) as [nvim|] eqn:Hn;
    [|unfold main in H; rewrite Hn in H; discriminate H].
  destruct (args_ranges args) as [e|[fr pr]] eqn:Hr.
  { rewrite (main_bad_ranges args nvim e Hn Hr) in H. discriminate H. }
  exists nvim, fr, pr. split; [reflexivity|]. split; [reflexivity|].
  rewrite (main_with_ranges args nvim fr pr Hn Hr) in H.
  destruct (main_inner_run nvim fr pr (args_n_warmup args)
              (args_duration args) (args_output args))
    as (visited & rest & rows & Hgrid & Hrows & Hend).
  cbv zeta. rewrite Hgrid.
  destruct Hend as [(-> & Hne & M) | [(-> & -> & M) |
                    (p & after & e & -> & Hp & M)]];
    rewrite M in H.
  - injection H as <- <- <-. left. split; [reflexivity|].
    rewrite app_nil_r. split; [|now exists rows].
    intros ->. inversion Hrows. now subst.
  - discriminate H.
  - destruct e; try discriminate H. injection H as <- <- <-.
    right. split; [reflexivity|].
    exists p, returncode0, stderr. eexists. split; [|split].
    + apply in_or_app. right. now left.
    + exact Hp.
    + reflexivity.
Qed.

(** X21.  An exception of the sweep that is not a process failure (an assertion
    on the echo, a missing column, an empty grid) leaves [main] as it is,
    and the script ends with status 1 after the traceback. *)
Theorem run_script_uncaught args nvim files_range parallel_range e output err :
  args_nvim args = Some nvim ->
  args_ranges args = inr (files_range, parallel_range) ->
  main_inner nvim files_range parallel_range (args_n_warmup args)
             (args_duration args) (args_output args) = (inl e, output, err) ->
  (forall rc stderr, e <> CalledProcessError rc stderr) ->
  main args = (inl e, output, err) /\
  run_script args = (1, output, (err ++ [Traceback e])%list).
Proof.
  intros Hn Hr M He.
  assert (E : main args = (inl e, output, err)).
  { rewrite (main_with_ranges args nvim files_range parallel_range Hn Hr), M.
    destruct e; try reflexivity. now contradiction (He returncode0 stderr). }
  split; [exact E|]. unfold run_script. now rewrite E.
Qed.

(** ** [range] and the grid *)

Lemma count_below (d s : Z) (i : nat) :
  0 < s ->
  (Nat.lt i (Z.to_nat (if 0 <? d then (d - 1) / s + 1 else 0))
   <-> Z.of_nat i * s < d).
Proof.
  intros Hs. destruct (Z.ltb_spec 0 d) as [Hd|Hd].
  - assert (0 <= (d - 1) / s) by (apply Z.div_pos; lia).
    pose proof (Z.mul_div_le (d - 1) s Hs).
    pose proof (Z.mul_succ_div_gt (d - 1) s Hs).
    split; intros H'; nia.
  - split; [simpl; lia | nia].
Qed.

Lemma multiple_below (d s x : Z) :
  0 < s ->
  ((exists i : nat, Z.of_nat i * s < d /\ x = Z.of_nat i * s)
   <-> 0 <= x < d /\ x mod s = 0).
Proof.
  intros Hs. split.
  - intros (i & Hi & ->). split; [nia|]. apply Z.mod_mul. lia.
  - intros ([Hx Hd] & Hm). exists (Z.to_nat (x / s)).
    assert (0 <= x / s) by (apply Z.div_pos; lia).
    rewrite Z2Nat.id by assumption.
    pose proof (Z.div_mod x s ltac:(lia)). nia.
Qed.

Lemma In_range_elems (r : range) (x : Z) :
  In x (range_elems r) <->
  exists i : nat,
    Nat.lt i (Z.to_nat (range_len r)) /\ x = start r + Z.of_nat i * step r.
Proof.
  unfold range_elems. rewrite in_map_iff. split.
  - intros (i & <- & Hi). apply in_seq in Hi. exists i. split; [lia|reflexivity].
  - intros (i & Hi & ->). exists i. split; [reflexivity|].
    apply in_seq. unfold Nat.lt in Hi. lia.
Qed.

(** X22.  The numbers of a range, as Python defines them: with a positive stride
    those from [start] up to, but not including, [stop] that are a multiple
    of the stride away from [start]; with a negative stride those from
    [start] down to, but not including, [stop]. *)
Theorem range_elems_spec (r : range) (x : Z) :
  (0 < step r ->
   (In x (range_elems r) <->
    start r <= x < stop r /\ (x - start r) mod step r = 0)) /\
  (step r < 0 ->
   (In x (range_elems r) <->
    stop r < x <= start r /\ (start r - x) mod (- step r) = 0)).
Proof.
  split; intros Hs; rewrite In_range_elems; unfold range_len.
  - replace (0 <? step r) with true by (symmetry; now apply Z.ltb_lt).
    replace (start r <? stop r) with (0 <? stop r - start r)
      by (destruct (Z.ltb_spec 0 (stop r - start r)),
                   (Z.ltb_spec (start r) (stop r)); lia).
    transitivity (0 <= x - start r < stop r - start r
                  /\ (x - start r) mod step r = 0); [|intuition lia].
    rewrite <- (multiple_below _ _ _ Hs).
    split; intros (i & Hi & E); exists i.
    + apply (count_below _ _ _ Hs) in Hi. split; [exact Hi | lia].
    + split; [now apply (count_below _ _ _ Hs) | lia].
  - replace (0 <? step r) with false by (symmetry; apply Z.ltb_ge; lia).
    replace (step r <? 0) with true by (symmetry; now apply Z.ltb_lt).
    replace (stop r <? start r) with (0 <? start r - stop r)
      by (destruct (Z.ltb_spec 0 (start r - stop r)),
                   (Z.ltb_spec (stop r) (start r)); lia).
    assert (Hs' : 0 < - step r) by lia.
    transitivity (0 <= start r - x < start r - stop r
                  /\ (start r - x) mod (- step r) = 0); [|intuition lia].
    rewrite <- (multiple_below _ _ _ Hs').
    split; intros (i & Hi & E); exists i.
    + apply (count_below _ _ _ Hs') in Hi. split; [exact Hi | lia].
    + split; [now apply (count_below _ _ _ Hs') | lia].
Qed.

Lemma NoDup_map_injective {A B} (f : A -> B) (l : list A) :
  (forall x y, f x = f y -> x = y) -> NoDup l -> NoDup (map f l).
Proof.
  intros Hf. induction 1 as [|x l Hx _ IH]; simpl; constructor; [|exact IH].
  rewrite in_map_iff. intros (y & E & Hy). apply Hf in E. now subst y.
Qed.

Lemma NoDup_range_elems (r : range) : NoDup (range_elems r).
Proof.
  unfold range_elems. destruct (Z.eq_dec (step r) 0) as [E|E].
  - unfold range_len. rewrite E. simpl. constructor.
  - apply NoDup_map_injective; [|apply seq_NoDup].
    intros i j H. nia.
Qed.

Lemma In_grid (files parallel : list Z) (point : Z * Z) :
  In point (grid files parallel) <->
  In (fst point) files /\ In (snd point) parallel.
Proof.
  unfold grid. rewrite in_flat_map. split.
  - intros (n_files & Hf & Hp). apply in_map_iff in Hp as (n_parallel & <- & Hp).
    now split.
  - intros [Hf Hp]. exists (fst point). split; [exact Hf|].
    apply in_map_iff. exists (snd point). split; [now destruct point | exact Hp].
Qed.

(** X23.  The grid of a sweep holds every combination of a number of the outer
    range with a number of the inner range, each once: no point is measured
    twice, and their number is the product of the lengths of the ranges. *)
Theorem grid_points (files_range parallel_range : range) :
  let points := grid (range_elems files_range) (range_elems parallel_range) in
  NoDup points /\
  (forall n_files n_parallel,
      In (n_files, n_parallel) points <->
      In n_files (range_elems files_range) /\
      In n_parallel (range_elems parallel_range)) /\
  List.length points
  = (List.length (range_elems files_range)
     * List.length (range_elems parallel_range))%nat.
Proof.
  intros points. split; [|split].
  - unfold points, grid.
    pose proof (NoDup_range_elems files_range) as Hf.
    pose proof (NoDup_range_elems parallel_range) as Hp.
    induction Hf as [|n_files files Hn _ IH]; simpl; [constructor|].
    apply NoDup_app.
    + apply NoDup_map_injective; [|exact Hp]. now intros x y [= ->].
    + exact IH.
    + intros [a b] H1 H2. apply in_map_iff in H1 as (y & [= <- <-] & _).
      apply (In_grid files _ (n_files, y)) in H2 as [H2 _]. contradiction.
  - intros n_files n_parallel. apply (In_grid _ _ (n_files, n_parallel)).
  - apply grid_length.
Qed.

(** ** [visualize.py] *)

Lemma is_prefix_append (p t : string) : is_prefix p (p ++ t) = true.
Proof. apply is_prefix_iff. now exists t. Qed.

(** X24.  [clear_unnamed_labels] blanks the names that begin with "Unnamed: " and
    keeps every other name; applying it twice is the same as applying it
    once, and its result never begins with "Unnamed: ". *)
Theorem clear_unnamed_labels_spec (name : string) :
  (is_prefix "Unnamed: " name = true -> clear_unnamed_labels name = "") /\
  (is_prefix "Unnamed: " name = false -> clear_unnamed_labels name = name) /\
  clear_unnamed_labels (clear_unnamed_labels name) = clear_unnamed_labels name /\
  is_prefix "Unnamed: " (clear_unnamed_labels name) = false.
Proof.
  unfold clear_unnamed_labels.
  destruct (is_prefix "Unnamed: " name) eqn:E.
  - repeat split; try reflexivity. discriminate.
  - rewrite E. repeat split; try reflexivity; try assumption. discriminate.
Qed.

(** X25.  Reading back the header of the report of the two metrics: the
    labels that [read_csv] builds from the two header lines have the names
    "Unnamed: 11_level_1", "Unnamed: 12_level_1" and "Unnamed: 13_level_1"
    at the second level of the three metadata columns, which are the keys of
    the [dtype] mapping; renamed at the second level with
    [clear_unnamed_labels], the labels are those of the report. *)
Theorem visualize_reads_header :
  exists read,
    read_labels ("" :: map fst summary_keys) ("" :: map snd summary_keys)
      = inr read /\
    firstn 10 read = firstn 10 summary_keys /\
    skipn 10 read = map fst dtype_overrides /\
    rename_level1 clear_unnamed_labels read = summary_keys.
Proof. eexists. repeat split; reflexivity. Qed.

(** X26.  Of the groups of [n_files], [main] plots those in the odd hundreds: 100
    to 199, 300 to 399, and so on, also below zero; it skips the others. *)
Theorem is_plotted_odd_hundreds (hundreds rest : Z) :
  0 <= rest < 100 ->
  is_plotted (100 * hundreds + rest) = Z.odd hundreds.
Proof.
  intros H. unfold is_plotted.
  replace ((100 * hundreds + rest) / 100) with hundreds.
  - rewrite Zmod_odd. now destruct (Z.odd hundreds).
  - apply Z.div_unique with rest; lia.
Qed.

End Benchmark.

(** * The properties on the sample workers *)


(** C3 (as amended) on the one-trial worker and the worker that runs out of
    file descriptors. *)
Lemma C3_witness :
  keys sample_row_ok = keys sample_row_emfile /\
  lookup ("status", "") sample_row_ok = Some (VStr "ok") /\
  lookup ("status", "") sample_row_emfile = Some (VStr "emfile").
Proof.
  destruct (C3_same_keys sample_sqrt worker_one_trial worker_emfile [] 0 0 10
              2%Q sample_row_ok sample_row_emfile)
    as (H1 & _ & _ & H2 & code & H3 & H4).
  - reflexivity.
  - simpl. lia.
  - simpl. apply Permutation_refl.
  - reflexivity.
  - reflexivity.
  - vm_compute in H3. injection H3 as <-. now repeat split.
Defined.

(** C3 as stated fails when the worker reports a third metric: its row has
    the label (io_ms, mean), the row of a classified failure has not. *)
Lemma C3_counterexample :
  exists row_ok row_fail,
    fst (get_data_row sample_sqrt worker_extra_metric [] 0 0 10 2%Q)
      = inr row_ok /\
    fst (get_data_row sample_sqrt worker_emfile [] 0 0 10 2%Q)
      = inr row_fail /\
    In ("io_ms", "mean") (keys row_ok) /\
    ~ In ("io_ms", "mean") (keys row_fail) /\
    keys row_ok <> keys row_fail.
Proof.
  eexists _, _. split; [reflexivity|]. split; [reflexivity|].
  vm_compute. repeat split.
  - tauto.
  - intuition discriminate.
  - discriminate.
Defined.

(** C4 on the one-trial worker. *)
Lemma C4_witness :
  exists block tag,
    sample_row_ok = (block ++ metadata tag 0 0)%list /\
    (forall k v, In (k, v) block ->
                 (exists s, snd k = stat_label s) /\ exists x, v = VFloat x) /\
    (returncode (worker_one_trial [] 0 10 2%Q) = 0 -> tag = "ok") /\
    (returncode (worker_one_trial [] 0 10 2%Q) <> 0 ->
     get_known_error_code (proc_stderr (worker_one_trial [] 0 10 2%Q))
       = Some tag) /\
    lookup ("status", "") sample_row_ok = Some (VStr tag) /\
    lookup ("n_files", "") sample_row_ok = Some (VInt 0) /\
    lookup ("n_parallel", "") sample_row_ok = Some (VInt 0).
Proof.
  apply (C4_metadata_appended sample_sqrt worker_one_trial [] 0 0 10 2%Q
           sample_row_ok).
  reflexivity.
Defined.

(** C6 on an empty outer range. *)
Lemma C6_witness :
  main_inner sample_sqrt sample_repr worker_one_trial empty_range files_0 10
             2%Q [] = (inl (ValueError "no data"), [], []) /\
  forall rc stderr, ValueError "no data" <> CalledProcessError rc stderr.
Proof.
  apply (C6_empty_range sample_sqrt sample_repr worker_one_trial empty_range
           files_0 10 2%Q []).
  left. reflexivity.
Defined.


(** C8 (as amended) on the one-trial worker, whose echo is right, and on
    the worker whose echoed number of files is one too high. *)
Lemma C8_witness :
  (exists row,
      fst (get_data_row sample_sqrt worker_one_trial [] 0 0 10 2%Q)
        = inr row) /\
  fst (get_data_row sample_sqrt worker_wrong_echo [] 0 0 10 2%Q)
    = inl (AssertionError (stdout (worker_wrong_echo [] 0 10 2%Q))).
Proof.
  split.
  - apply (C8_echo_assertions sample_sqrt sample_repr worker_one_trial [] 0 0
             10 2%Q [Some (inject_Z 0)] [Some (inject_Z 0)]
             eq_refl eq_refl eq_refl).
    + split; repeat constructor; eexists; split; reflexivity.
    + reflexivity.
  - apply (C8_echo_assertions sample_sqrt sample_repr worker_wrong_echo [] 0 0
             10 2%Q [Some (inject_Z 1)] [Some (inject_Z 0)]
             eq_refl eq_refl eq_refl).
    + simpl. lia.
    + simpl. lia.
    + intros [U _]. apply Forall_inv in U. destruct U as (q & [= <-] & U).
      discriminate U.
Defined.

(** C8 as stated fails beyond [2 ^ 53]: asked for a pool of [2 ^ 53 + 1],
    the worker echoes [2 ^ 53] in a [float64] column; the echoed value
    differs from the requested one, yet no assertion fails, the row has the
    status [ok] and the sweep completes. *)
Lemma C8_counterexample :
  let n_parallel := 2 ^ 53 + 1 in
  let proc := worker_rounded_echo [] n_parallel 10 2%Q in
  returncode proc = 0 /\
  getitem "n_files" (stdout proc) = inr [Some (inject_Z 0)] /\
  getitem "n_parallel" (stdout proc) = inr [Some (inject_Z (2 ^ 53))] /\
  uniform [Some (inject_Z 0)] 0 /\
  ~ uniform [Some (inject_Z (2 ^ 53))] n_parallel /\
  (exists row,
      fst (get_data_row sample_sqrt worker_rounded_echo [] 0 n_parallel 10 2%Q)
        = inr row /\
      lookup ("status", "") row = Some (VStr "ok") /\
      lookup ("n_parallel", "") row = Some (VInt n_parallel)) /\
  fst (fst (main_inner sample_sqrt sample_repr worker_rounded_echo files_0
                       {| start := n_parallel; stop := n_parallel + 1;
                          step := 1 |} 10 2%Q [])) = inr tt.
Proof.
  repeat apply conj; try reflexivity.
  - repeat constructor. eexists. split; reflexivity.
  - intros U. apply Forall_inv in U. destruct U as (q & [= <-] & U).
    discriminate U.
  - eexists. repeat split; reflexivity.
Defined.

(** C10 on a worker that crashes at the first point. *)
Lemma C10_witness :
  exists err,
    main_inner sample_sqrt sample_repr worker_crash files_0 parallel_0_1 10
               2%Q [] = (inl (CalledProcessError 1 "boom"), [], err).
Proof.
  apply (C10_no_rows_sink_untouched sample_sqrt sample_repr worker_crash
           files_0 parallel_0_1 10 2%Q [] (0, 0) [(0, 1)]
           (CalledProcessError 1 "boom")).
  - reflexivity.
  - reflexivity.
Defined.

(** ** The scenarios of the specification, run on the model *)

(** The ranges (0, 200, 100) give the grid of four points; with the
    one-trial worker every row has the status [ok], a mean [time_ms] of 2
    and a missing standard deviation. *)
Example scenario_four_points :
  grid (range_elems {| start := 0; stop := 200; step := 100 |})
       (range_elems {| start := 0; stop := 200; step := 100 |})
    = [(0, 0); (0, 100); (100, 0); (100, 100)] /\
  Forall (fun point =>
            exists row,
              point_result sample_sqrt worker_one_trial 10 2%Q point
                = inr row /\
              lookup ("status", "") row = Some (VStr "ok") /\
              lookup ("time_ms", "mean") row = Some (VFloat (Some 2%Q)) /\
              lookup ("time_ms", "std") row = Some (VFloat nan) /\
              lookup ("n_files", "") row = Some (VInt (fst point)) /\
              lookup ("n_parallel", "") row = Some (VInt (snd point)))
         [(0, 0); (0, 100); (100, 0); (100, 100)].
Proof.
  split; [reflexivity|].
  repeat constructor; eexists; repeat split; reflexivity.
Qed.

(** A failure whose first line is the EMFILE message yields the row of
    missing statistics with the status [emfile]. *)
Example scenario_emfile :
  fst (get_data_row sample_sqrt worker_emfile [] 0 0 10 2%Q)
    = inr sample_row_emfile.
Proof. reflexivity. Qed.

(** A worker whose echoed number of files is wrong fails the first
    assertion. *)
Example scenario_wrong_echo :
  fst (get_data_row sample_sqrt worker_wrong_echo [] 0 0 10 2%Q)
    = inl (AssertionError (stdout (worker_wrong_echo [] 0 10 2%Q))).
Proof. reflexivity. Qed.

(** The echo of [2 ^ 53] for a pool of [2 ^ 53 + 1] processes fails the
    assertion when the column is [int64], which is compared exactly. *)
Example scenario_int64_echo :
  fst (get_data_row sample_sqrt worker_rounded_echo_int64 [] 0 (2 ^ 53 + 1)
                    10 2%Q)
    = inl (AssertionError
             (stdout (worker_rounded_echo_int64 [] (2 ^ 53 + 1) 10 2%Q))).
Proof. reflexivity. Qed.

(** A worker that reports a metric called [status]: the tag is refused by
    the statistics of that metric, and no row is returned. *)
Example scenario_status_metric :
  fst (get_data_row sample_sqrt worker_status_metric [] 0 0 10 2%Q)
    = inl (TypeError (VStr "ok")).
Proof. reflexivity. Qed.

(** The classifier on texts of several lines: a pattern inside the first
    line is found, a pattern on a later line is not, and the first entry
    of the table wins. *)
Example scenario_classifier :
  get_known_error_code
    ("E5108: EMFILE: too many open files: 7.org"
       ++ String newline "stack traceback:") = Some "emfile" /\
  get_known_error_code
    ("E5108: assertion failed"
       ++ String newline "EMFILE: too many open files") = None /\
  get_known_error_code
    "promise timeout of 20000ms reached; EMFILE: too many open files"
    = Some "emfile" /\
  get_known_error_code "promise timeout of 20000ms reached" = Some "timeout".
Proof. repeat split; reflexivity. Qed.

(** * The further properties on the sample workers *)

Lemma get_data_row_missing_echo_witness :
  fst (get_data_row sample_sqrt worker_no_echo [] 0 0 10 2%Q)
    = inl (KeyError "n_files").
Proof.
  apply (get_data_row_missing_echo sample_sqrt worker_no_echo [] 0 0 10 2%Q
                                   eq_refl).
  reflexivity.
Defined.

Lemma row_ends_with_point_witness :
  (exists front, sample_row_ok = (front ++ point_entries 0 0)%list) /\
  lookup ("n_files", "") sample_row_ok = Some (VInt 0) /\
  lookup ("n_parallel", "") sample_row_ok = Some (VInt 0).
Proof.
  apply (row_ends_with_point sample_sqrt worker_one_trial [] 0 0 10 2%Q).
  reflexivity.
Defined.

Lemma row_status_domain_witness :
  let proc := worker_emfile [] 0 10 2%Q in
  (returncode proc = 0 /\
   lookup ("status", "") sample_row_emfile = Some (VStr "ok")) \/
  (returncode proc <> 0 /\
   (lookup ("status", "") sample_row_emfile = Some (VStr "emfile") \/
    lookup ("status", "") sample_row_emfile = Some (VStr "timeout"))).
Proof.
  apply (row_status_domain sample_sqrt worker_emfile [] 0 0 10 2%Q).
  - reflexivity.
  - reflexivity.
Defined.

Lemma main_inner_returns_witness :
  exists rows,
    Forall2 (fun pt row =>
               point_result sample_sqrt worker_one_trial 10 2%Q pt = inr row)
            (grid (range_elems files_0) (range_elems files_0)) rows /\
    write [] (report sample_repr [sample_row_ok] "nan")
      = write [] (report sample_repr rows "nan") /\
    List.length (data_lines sample_repr (frame_of_rows rows) "nan")
    = (List.length (range_elems files_0)
       * List.length (range_elems files_0))%nat /\
    (0 < List.length rows)%nat.
Proof.
  apply (main_inner_returns sample_sqrt sample_repr worker_one_trial files_0
                            files_0 10 2%Q [] _ []).
  reflexivity.
Defined.

Lemma known_failures_complete_witness :
  exists rows,
    main_inner sample_sqrt sample_repr worker_emfile files_0 parallel_0_1 10
               2%Q []
      = (inr tt, write [] (report sample_repr rows "nan"), []) /\
    Forall2 (fun pt row =>
               exists status,
                 get_known_error_code
                   (proc_stderr (point_proc worker_emfile 10 2%Q pt))
                   = Some status /\
                 row = reduce_row sample_sqrt make_empty_data status
                                  (fst pt) (snd pt))
            (grid (range_elems files_0) (range_elems parallel_0_1)) rows.
Proof.
  apply (known_failures_complete sample_sqrt sample_repr worker_emfile files_0
                                 parallel_0_1 10 2%Q []).
  - vm_compute. discriminate.
  - intros point _. split; [simpl; lia | simpl; discriminate].
Defined.


Lemma collect_stats_lookup_witness :
  (forall xs s,
      In ("time_ms", xs) one_trial -> "mean" = stat_label s ->
      lookup ("time_ms", "mean") (collect_stats sample_sqrt one_trial row_stats)
        = Some (VFloat (reduce sample_sqrt s xs))) /\
  (has_column "time_ms" one_trial = false \/
   (forall s, "mean" <> stat_label s) ->
   lookup ("time_ms", "mean") (collect_stats sample_sqrt one_trial row_stats)
     = None).
Proof.
  apply (collect_stats_lookup sample_sqrt one_trial "time_ms" "mean").
  simpl. repeat constructor; simpl; intuition discriminate.
Defined.

Lemma collect_stats_column_order_witness :
  collect_stats sample_sqrt one_trial_swapped row_stats
    = collect_stats sample_sqrt one_trial row_stats.
Proof.
  apply (collect_stats_column_order sample_sqrt one_trial one_trial_swapped).
  - simpl. repeat constructor; simpl; intuition discriminate.
  - apply perm_swap.
Defined.

Lemma report_of_uniform_rows_witness :
  frame_of_rows [sample_row_ok; sample_row_emfile]
    = {| columns := summary_keys;
         records := map (map snd) [sample_row_ok; sample_row_emfile] |} /\
  csv_lines (report sample_repr [sample_row_ok; sample_row_emfile] "nan") =
    ([ "" :: map fst summary_keys; "" :: map snd summary_keys ]
       ++ value_lines sample_repr [sample_row_ok; sample_row_emfile] "nan")%list.
Proof.
  apply (report_of_uniform_rows sample_repr [sample_row_ok; sample_row_emfile]
                                summary_keys "nan").
  - discriminate.
  - unfold summary_keys. repeat constructor; simpl; intuition discriminate.
  - intros row [<- | [<- | []]]; reflexivity.
Defined.

Lemma report_layout_witness :
  exists rows,
    Forall2 (fun pt row =>
               point_result sample_sqrt worker_one_trial 10 2%Q pt = inr row)
            (grid (range_elems files_0) (range_elems files_0)) rows /\
    write [] (report sample_repr [sample_row_ok] "nan")
      = write [] (report sample_repr rows "nan") /\
    csv_lines (report sample_repr rows "nan") =
      ([ [ ""; "setup_ms"; "setup_ms"; "setup_ms"; "setup_ms"; "setup_ms";
           "time_ms"; "time_ms"; "time_ms"; "time_ms"; "time_ms";
           "status"; "n_files"; "n_parallel" ];
         [ ""; "max"; "mean"; "median"; "min"; "std";
           "max"; "mean"; "median"; "min"; "std"; ""; ""; "" ] ]
         ++ value_lines sample_repr rows "nan")%list.
Proof.
  apply (report_layout sample_sqrt sample_repr worker_one_trial files_0
                       files_0 10 2%Q [] _ []).
  - intros point [<- | []] proc _. apply Permutation_refl.
  - reflexivity.
Defined.

Lemma main_parallel_default_witness :
  main sample_sqrt sample_repr
       (with_parallel_range (sample_args worker_one_trial) None)
  = main sample_sqrt sample_repr
         (with_parallel_range
            (with_parallel_range (sample_args worker_one_trial) None)
            (Some (0, 1, 1))).
Proof.
  apply (main_parallel_default sample_sqrt sample_repr
           (with_parallel_range (sample_args worker_one_trial) None)).
  reflexivity.
Defined.

Lemma main_return_values_witness :
  exists nvim files_range parallel_range,
    args_nvim (sample_args worker_crash) = Some nvim /\
    args_ranges (sample_args worker_crash)
      = inr (files_range, parallel_range) /\
    let points :=
      grid (range_elems files_range) (range_elems parallel_range) in
    let result := point_result sample_sqrt nvim 10 2%Q in
    ((1 = 0 /\ points <> [] /\
      exists rows, Forall2 (fun pt row => result pt = inr row) points rows)
     \/
     (1 = 1 /\
      exists point rc stderr err0,
        In point points /\
        result point = inl (CalledProcessError rc stderr) /\
        [ Traceback (CalledProcessError 1 "boom");
          Printed separator;
          Printed ("catured error output:" ++ String newline "boom") ]
        = (err0 ++ [ Traceback (CalledProcessError rc stderr);
                     Printed separator;
                     Printed ("catured error output:"
                                ++ String newline stderr) ])%list)).
Proof.
  apply (main_return_values sample_sqrt sample_repr (sample_args worker_crash)
                            1 []).
  reflexivity.
Defined.

Lemma run_script_uncaught_witness :
  let e := AssertionError (stdout (worker_wrong_echo [] 0 10 2%Q)) in
  main sample_sqrt sample_repr (sample_args worker_wrong_echo)
    = (inl e, [], []) /\
  run_script sample_sqrt sample_repr (sample_args worker_wrong_echo)
    = (1, [], [Traceback e]).
Proof.
  apply (run_script_uncaught sample_sqrt sample_repr
           (sample_args worker_wrong_echo) worker_wrong_echo files_0
           parallel_0_1).
  - reflexivity.
  - reflexivity.
  - reflexivity.
  - discriminate.
Defined.

Lemma is_plotted_odd_hundreds_witness :
  is_plotted (100 * 3 + 0) = Z.odd 3.
Proof. apply (is_plotted_odd_hundreds 3 0). lia. Defined.
